(** * Nexcart: cart, checkout, registration and catalogue queries

    A shallow embedding of the request handlers of [app.py] (a Flask
    application over three SQLAlchemy tables and the signed session
    cookie), with the properties of the cart and checkout consistency
    model proved about it.

    Every handler is a function from the request to a computation over
    the [World]: the three tables, the upload directory and the
    visitor's session.  A computation either returns or raises, as the
    Python code does; a raised exception that no handler catches is
    what Flask turns into a 500 response. *)

From Stdlib Require Import List ZArith String Ascii Bool Lia PrimFloat.
From Stdlib Require Import Permutation.
Import ListNotations.
Set Warnings "-inexact-float".
Local Open Scope Z_scope.

(** ** What the handlers take from Python and its libraries *)

(** [Float] columns hold binary64 values; [+] on them is IEEE addition.
    The integer literal [0] that a total starts from is converted to
    [0.0] by the first addition, and is written [0.0] here. *)
Definition number : Type := PrimFloat.float.
Definition num_zero : number := 0%float.
Definition num_add : number -> number -> number := PrimFloat.add.

(** The builtins and library operators the handlers call.  The
    development is parametric in them: no property below depends on how
    a string is parsed as a number, on the summation algorithm of [sum],
    on the SQL rendering of [contains], on the password hash or on how
    file names are sanitised. *)
Class Runtime := {
  (** [float(s)] on a string; [None] stands for [ValueError] *)
  py_float : string -> option number;
  (** [sum(l)] on a list of numbers *)
  py_sum : list number -> number;
  (** [column.contains(q)] on a column value that is not NULL *)
  contains : string -> string -> bool;
  (** [werkzeug.security.generate_password_hash] *)
  generate_password_hash : string -> string;
  (** [werkzeug.utils.secure_filename] *)
  secure_filename : string -> string
}.

(** ** Models *)

Module User.
Record row := {
  id : Z;
  username : string;
  password_hash : string;
  is_admin : bool
}.
End User.

Module Product.
Record row := {
  id : Z;
  name : string;
  price : number;
  image : option string;
  description : option string;
  category : option string
}.
End Product.

Module Order.
Record row := {
  id : Z;
  customer_name : string;
  address : string;
  total_price : number;
  status : string
}.
End Order.

(** ** Requests, responses, exceptions *)

Inductive Method := GET | POST.

Record Request := {
  method : Method;
  (** [request.form.get] *)
  form : string -> option string;
  (** [request.args.get] *)
  args : string -> option string;
  (** [request.files.get(..)], reduced to the file name of the upload *)
  files : string -> option string;
  referrer : option string
}.

Inductive exn :=
| ValueError | TypeError | AttributeError | IntegrityError
| OverflowError | IsADirectoryError | OSError | OperationalError.

Inductive res (A : Type) :=
| Ok (a : A)
| Raise (e : exn).
Arguments Ok {A} a.
Arguments Raise {A} e.

Inductive endpoint :=
| home_ep | register_ep | login_ep | shop_page_ep | view_cart_ep.

Definition url_for (e : endpoint) : string :=
  match e with
  | home_ep => "/"
  | register_ep => "/register"
  | login_ep => "/login"
  | shop_page_ep => "/shop"
  | view_cart_ep => "/cart"
  end.

(** The variables a template is rendered with. *)
Inductive context :=
| no_context
| products_ctx (products : list Product.row)
| cart_ctx (cart_items : list Product.row) (total : number)
| total_ctx (total : number)
| name_ctx (name : option string).

Inductive response :=
| redirect (location : string)
| render_template (template : string) (ctx : context).

(** ** The world a request runs in *)

(** The Flask session: the ['cart'] key may be absent; [flash] appends
    (category, message) pairs; flask-login keeps the user id. *)
Record Session := {
  cart : option (list Z);
  flashes : list (string * string);
  user_id : option Z
}.

Record World := {
  users : list User.row;
  products : list Product.row;
  orders : list Order.row;
  uploads : list string;
  session : Session
}.

(** ** Computations that may raise *)

Definition M (A : Type) : Type := World -> res A * World.

Definition ret {A} (a : A) : M A := fun w => (Ok a, w).

Definition raise {A} (e : exn) : M A := fun w => (Raise e, w).

Definition bind {A B} (m : M A) (k : A -> M B) : M B :=
  fun w =>
    match m w with
    | (Ok a, w') => k a w'
    | (Raise e, w') => (Raise e, w')
    end.

Definition gets {A} (f : World -> A) : M A := fun w => (Ok (f w), w).

Definition modify (f : World -> World) : M unit := fun w => (Ok tt, f w).

Definition lift {A} (r : res A) : M A := fun w => (r, w).

Notation "x <- m ;; k" := (bind m (fun x => k))
  (at level 61, m at next level, right associativity).
Notation "m ;;; k" := (bind m (fun _ => k))
  (at level 61, right associativity).

(** ** The handlers *)

Section Handlers.
Context `{RT : Runtime}.

(** *** Session access *)

Definition set_session (s : Session) (w : World) : World :=
  {| users := users w; products := products w; orders := orders w;
     uploads := uploads w; session := s |}.

Definition set_cart (c : option (list Z)) (s : Session) : Session :=
  {| cart := c; flashes := flashes s; user_id := user_id s |}.

(** [session.get('cart', [])] *)
Definition session_get_cart (w : World) : list Z :=
  match cart (session w) with
  | Some l => l
  | None => []
  end.

(** [flash(message, category)] *)
Definition flash (message category : string) : M unit :=
  modify (fun w =>
    set_session {| cart := cart (session w);
                   flashes := flashes (session w) ++ [(category, message)];
                   user_id := user_id (session w) |} w).

(** [session['cart'] = l] *)
Definition session_set_cart (l : list Z) : M unit :=
  modify (fun w => set_session (set_cart (Some l) (session w)) w).

(** [session.pop('cart', None)] *)
Definition session_pop_cart : M unit :=
  modify (fun w => set_session (set_cart None (session w)) w).

(** [x or y] on an optional string: the empty string is falsy too. *)
Definition str_or (x : option string) (y : string) : string :=
  match x with
  | Some (String a s) => String a s
  | _ => y
  end.

(** *** Context processor *)

(** [inject_cart_count]: [len(session.get('cart', []))]. *)
Definition inject_cart_count (w : World) : Z :=
  Z.of_nat (List.length (session_get_cart w)).

(** *** Cart system *)

(** [x in l] *)
Definition py_in (x : Z) (l : list Z) : bool := existsb (Z.eqb x) l.

(** [l.remove(x)]: drops the first element equal to [x]; [ValueError]
    when there is none. *)
Fixpoint list_remove (x : Z) (l : list Z) : res (list Z) :=
  match l with
  | [] => Raise ValueError
  | y :: r =>
      if y =? x then Ok r
      else match list_remove x r with
           | Ok r' => Ok (y :: r')
           | Raise e => Raise e
           end
  end.

Definition add_to_cart (product_id : Z) (req : Request) : M response :=
  has_cart <- gets (fun w => match cart (session w) with
                             | Some _ => true | None => false end) ;;
  (if has_cart then ret tt else session_set_cart []) ;;;
  cart_list <- gets session_get_cart ;;
  session_set_cart (cart_list ++ [product_id]) ;;;
  flash "Item added to cart!" "success" ;;;
  ret (redirect (str_or (referrer req) (url_for shop_page_ep))).

Definition remove_from_cart (product_id : Z) (req : Request) : M response :=
  c <- gets (fun w => cart (session w)) ;;
  match c with
  | Some cart_list =>
      if py_in product_id cart_list then
        cart_list' <- lift (list_remove product_id cart_list) ;;
        session_set_cart cart_list' ;;;
        flash "Item removed." "info"
      else ret tt
  | None => ret tt
  end ;;;
  ret (redirect (url_for view_cart_ep)).

(** *** Table access *)

(** The primary key a new row gets: one more than the largest in use. *)
Definition next_id (ids : list Z) : Z := fold_right Z.max 0 ids + 1.

(** The integers SQLite can bind: those of 64 bits, signed. *)
Definition int64 (i : Z) : bool := (- 2 ^ 63 <=? i) && (i <? 2 ^ 63).

(** The row a key selects: the first one that has it. *)
Definition row_of_key (tbl : list Product.row) (i : Z) : option Product.row :=
  find (fun p => Product.id p =? i) tbl.

(** [Product.query.get(i)]: the key is bound into the query, which
    raises [OverflowError] for an integer that SQLite cannot hold. *)
Definition query_get (tbl : list Product.row) (i : Z)
  : res (option Product.row) :=
  if int64 i then Ok (row_of_key tbl i) else Raise OverflowError.

(** Truth value of a query result: a row is truthy, [None] is not. *)
Definition truthy {A} (o : option A) : bool :=
  match o with
  | Some _ => true
  | None => false
  end.

(** [o.price] on a query result: [AttributeError] on [None]. *)
Definition attr_price (o : option Product.row) : res number :=
  match o with
  | Some p => Ok (Product.price p)
  | None => Raise AttributeError
  end.

(** *** The cart view *)

(** One turn of the loop of [view_cart], on (cart_items, total_price). *)
Definition view_cart_step (tbl : list Product.row)
    (acc : list Product.row * number) (p_id : Z)
  : res (list Product.row * number) :=
  match query_get tbl p_id with
  | Ok (Some item) =>
      Ok (fst acc ++ [item], num_add (snd acc) (Product.price item))
  | Ok None => Ok acc
  | Raise e => Raise e
  end.

(** The loop, from an accumulator; an exception ends it. *)
Fixpoint view_cart_loop_from (tbl : list Product.row) (cart_ids : list Z)
    (acc : list Product.row * number) : res (list Product.row * number) :=
  match cart_ids with
  | [] => Ok acc
  | p_id :: rest =>
      match view_cart_step tbl acc p_id with
      | Ok acc' => view_cart_loop_from tbl rest acc'
      | Raise e => Raise e
      end
  end.

Definition view_cart_loop (tbl : list Product.row) (cart_ids : list Z)
  : res (list Product.row * number) :=
  view_cart_loop_from tbl cart_ids ([], num_zero).

Definition view_cart (req : Request) : M response :=
  cart_ids <- gets session_get_cart ;;
  tbl <- gets products ;;
  shown <- lift (view_cart_loop tbl cart_ids) ;;
  let (cart_items, total_price) := shown in
  ret (render_template "cart.html" (cart_ctx cart_items total_price)).

(** *** Checkout *)

(** [[Product.query.get(i).price for i in cart_ids if Product.query.get(i)]]:
    for each id the condition is evaluated, then, if it holds, the
    element. *)
Fixpoint checkout_prices (tbl : list Product.row) (cart_ids : list Z)
  : res (list number) :=
  match cart_ids with
  | [] => Ok []
  | i :: rest =>
      match query_get tbl i with
      | Raise e => Raise e
      | Ok condition =>
          if truthy condition then
            match query_get tbl i with
            | Raise e => Raise e
            | Ok found =>
                match attr_price found with
                | Raise e => Raise e
                | Ok x =>
                    match checkout_prices tbl rest with
                    | Ok xs => Ok (x :: xs)
                    | Raise e => Raise e
                    end
                end
            end
          else checkout_prices tbl rest
      end
  end.

(** [db.session.add(Order(..)); db.session.commit()].  The three
    columns given are declared [nullable=False], and SQLite stores a
    NaN as NULL: the insert of a row without a name or an address, or
    with a total that is not a number, fails and leaves the table as
    it was. *)
Definition db_add_order (customer_name address : option string)
    (total_price : number) : M unit :=
  match customer_name, address with
  | Some n, Some a =>
      if PrimFloat.is_nan total_price then raise IntegrityError
      else
        modify (fun w =>
          {| users := users w; products := products w;
             orders := orders w ++
               [{| Order.id := next_id (map Order.id (orders w));
                   Order.customer_name := n; Order.address := a;
                   Order.total_price := total_price;
                   Order.status := "Pending" |}];
             uploads := uploads w; session := session w |})
  | _, _ => raise IntegrityError
  end.

Definition checkout (req : Request) : M response :=
  cart_ids <- gets session_get_cart ;;
  match cart_ids with
  | [] =>
      flash "Your cart is empty." "warning" ;;;
      ret (redirect (url_for shop_page_ep))
  | _ :: _ =>
      tbl <- gets products ;;
      prices <- lift (checkout_prices tbl cart_ids) ;;
      let total_price := py_sum prices in
      match method req with
      | POST =>
          let customer_name := form req "name"%string in
          let address := form req "address"%string in
          db_add_order customer_name address total_price ;;;
          session_pop_cart ;;;
          ret (render_template "success.html" (name_ctx customer_name))
      | GET =>
          ret (render_template "checkout.html" (total_ctx total_price))
      end
  end.

(** *** Registration *)

(** [User.query.filter_by(username=u).first()]; the column is not
    nullable, so no row matches an absent name. *)
Definition user_by_username (u : option string) (tbl : list User.row)
  : option User.row :=
  match u with
  | Some name => find (fun r => String.eqb (User.username r) name) tbl
  | None => None
  end.

(** [set_password]: hashing an absent password raises. *)
Definition set_password (password : option string) : M string :=
  match password with
  | Some p => ret (generate_password_hash p)
  | None => raise AttributeError
  end.

(** [db.session.add(new_user); db.session.commit()]; returns the row. *)
Definition db_add_user (username : option string) (password_hash : string)
    (is_admin : bool) : M User.row :=
  match username with
  | Some name =>
      fun w =>
        let u := {| User.id := next_id (map User.id (users w));
                    User.username := name;
                    User.password_hash := password_hash;
                    User.is_admin := is_admin |} in
        (Ok u, {| users := users w ++ [u]; products := products w;
                  orders := orders w; uploads := uploads w;
                  session := session w |})
  | None => raise IntegrityError
  end.

Definition login_user (u : User.row) : M unit :=
  modify (fun w =>
    set_session {| cart := cart (session w);
                   flashes := flashes (session w);
                   user_id := Some (User.id u) |} w).

Definition register (req : Request) : M response :=
  match method req with
  | POST =>
      let username := form req "username"%string in
      let password := form req "password"%string in
      existing <- gets (fun w => user_by_username username (users w)) ;;
      if truthy existing then
        flash "User already exists!" "danger" ;;;
        ret (redirect (url_for register_ep))
      else
        password_hash <- set_password password ;;
        count <- gets (fun w => Z.of_nat (List.length (users w))) ;;
        let is_admin := if count =? 0 then true else false in
        new_user <- db_add_user username password_hash is_admin ;;
        login_user new_user ;;;
        flash "Account created successfully!" "success" ;;;
        ret (redirect (url_for home_ep))
  | GET => ret (render_template "register.html" no_context)
  end.

(** *** The shop listing *)

(** A filter on a nullable text column: NULL matches nothing. *)
Definition col_contains (col : option string) (q : string) : bool :=
  match col with
  | Some v => contains v q
  | None => false
  end.

Definition col_equals (col : option string) (v : string) : bool :=
  match col with
  | Some c => String.eqb c v
  | None => false
  end.

(** [or_(Product.name.contains(q), Product.description.contains(q))] *)
Definition matches_search (q : string) (p : Product.row) : bool :=
  contains (Product.name p) q || col_contains (Product.description p) q.

(** [filter_by(category=c)] *)
Definition matches_category (c : string) (p : Product.row) : bool :=
  col_equals (Product.category p) c.

(** The query that [shop_page] builds and runs; a parameter that is
    absent or empty is falsy and adds no filter. *)
Definition shop_query (search_query category_filter : option string)
    (tbl : list Product.row) : list Product.row :=
  let query := tbl in
  let query :=
    match search_query with
    | Some (String a s) => filter (matches_search (String a s)) query
    | _ => query
    end in
  let query :=
    match category_filter with
    | Some (String a s) => filter (matches_category (String a s)) query
    | _ => query
    end in
  query.

(** SQLite evaluates [LIKE] for a pattern of at most 50000 bytes, and
    [contains] adds a [%] at each end of the text. *)
Definition pattern_refused (search_query : string) : bool :=
  50000 <? Z.of_nat (String.length search_query) + 2.

(** [query.all()]: with a text filter whose pattern is refused, the test
    of the first row raises [OperationalError]. *)
Definition run_shop_query (search_query : option string)
    (tbl : list Product.row) : M unit :=
  match search_query, tbl with
  | Some (String a s), _ :: _ =>
      if pattern_refused (String a s) then raise OperationalError else ret tt
  | _, _ => ret tt
  end.

Definition shop_page (req : Request) : M response :=
  tbl <- gets products ;;
  run_shop_query (args req "q"%string) tbl ;;;
  let products := shop_query (args req "q"%string)
                             (args req "category"%string) tbl in
  ret (render_template "products.html" (products_ctx products)).

(** *** Admin *)

(** [current_user], through [load_user]. *)
Definition current_user (w : World) : option User.row :=
  match user_id (session w) with
  | Some i => find (fun u => User.id u =? i) (users w)
  | None => None
  end.

(** [float(v)] on a form value: [TypeError] when the field is absent,
    [ValueError] when the text is not a number. *)
Definition float_of_field (v : option string) : M number :=
  match v with
  | None => raise TypeError
  | Some s =>
      match py_float s with
      | Some x => ret x
      | None => raise ValueError
      end
  end.

(** The longest file name, in bytes, that the file systems of Linux
    take. *)
Definition name_max : nat := 255.

(** [file.save(os.path.join(UPLOAD_FOLDER, filename))]: with an empty
    name the path is the folder itself, and the write raises; so it
    does with a name longer than the file system takes. *)
Definition save_upload (filename : string) : M unit :=
  match filename with
  | EmptyString => raise IsADirectoryError
  | String _ _ =>
      if Nat.ltb name_max (String.length filename) then raise OSError
      else
        modify (fun w =>
          {| users := users w; products := products w; orders := orders w;
             uploads := uploads w ++ [filename]; session := session w |})
  end.

(** A text column left at [None] gets the default of the column. *)
Definition or_default (v : option string) (default : string) : string :=
  match v with
  | Some x => x
  | None => default
  end.

(** [db.session.add(Product(..)); db.session.commit()].  [name] and
    [price] are declared [nullable=False] and SQLite stores a NaN as
    NULL, so the insert fails without a name or with a price that is
    not a number; [description] and [category] have defaults, which
    the insert takes when the form gave none; [image] has none. *)
Definition db_add_product (name : option string) (price : number)
    (image description category : option string) : M unit :=
  match name with
  | Some n =>
      if PrimFloat.is_nan price then raise IntegrityError
      else
        modify (fun w =>
          {| users := users w;
             products := products w ++
               [{| Product.id := next_id (map Product.id (products w));
                   Product.name := n; Product.price := price;
                   Product.image := image;
                   Product.description :=
                     Some (or_default description EmptyString);
                   Product.category :=
                     Some (or_default category "General") |}];
             orders := orders w; uploads := uploads w;
             session := session w |})
  | None => raise IntegrityError
  end.

Definition admin_panel (req : Request) : M response :=
  user <- gets current_user ;;
  match user with
  | None =>
      (* login_required: flask-login flashes its message and sends the
         visitor to login_view, with the page asked for as next *)
      flash "Please log in to access this page." "message" ;;;
      ret (redirect (url_for login_ep ++ "?next=%2Fadmin"))
  | Some u =>
      if negb (User.is_admin u) then
        flash "Access Denied." "danger" ;;;
        ret (redirect (url_for home_ep))
      else
        match method req with
        | POST =>
            let p_name := form req "product_name"%string in
            let p_price := form req "product_price"%string in
            let p_desc := form req "product_desc"%string in
            let p_cat := form req "product_category"%string in
            filename <-
              match files req "product_image"%string with
              | Some (String a s) =>
                  let filename := secure_filename (String a s) in
                  save_upload filename ;;;
                  ret (Some filename)
              | _ => ret None
              end ;;
            price <- float_of_field p_price ;;
            db_add_product p_name price filename p_desc p_cat ;;;
            flash "Product Added!" "success"
        | GET => ret tt
        end ;;;
        tbl <- gets products ;;
        ret (render_template "admin.html" (products_ctx tbl))
  end.

(** *** Database setup *)

(** [seed_data]: (name, category, price, desc). *)
Definition seed_data : list (string * string * number * string) :=
  [ ("Mechanical Keycaps (Python Ed.)", "Hardware", 49.99%float,
     "Custom PBT keycaps in blue and yellow colors.");
    ("Ultrawide Monitor Stand", "Hardware", 120.00%float,
     "Aluminum stand for your dual-monitor coding setup.");
    ("Ergonomic Vertical Mouse", "Hardware", 35.50%float,
     "Save your wrist during long debugging sessions.");
    ("Flask Pro Template", "Software", 29.00%float,
     "Production-ready boilerplate with Auth, Admin, and Stripe.");
    ("API Access Key (Lifetime)", "Software", 99.00%float,
     "Unlimited requests to our machine learning backend.");
    ("Cloud Deployment Script", "Software", 15.00%float,
     "Automated bash scripts for AWS/DigitalOcean.");
    ("Developer Hoodie (Black)", "Merchandise", 55.00%float,
     "Heavyweight cotton. 'It works on my machine' print.");
    ("Vacuum Insulated Mug", "Merchandise", 22.00%float,
     "Keeps your coffee hot for 6 hours while you code.");
    ("Laptop Sticker Pack", "Merchandise", 8.00%float,
     "High-quality vinyl stickers: Python, Docker, Linux.");
    ("Blue Light Glasses", "Accessories", 45.00%float,
     "Protect your eyes from screen fatigue.");
    ("Desk Mat (900x400)", "Accessories", 25.00%float,
     "Smooth surface with code cheat sheets printed on it.") ]%string.

(** The seeding loop: one [db.session.add] per entry. *)
Definition seed_product (tbl : list Product.row)
    (item : string * string * number * string) : list Product.row :=
  let '(name, category, price, desc) := item in
  tbl ++ [{| Product.id := next_id (map Product.id tbl);
             Product.name := name; Product.price := price;
             Product.image := None;
             Product.description := Some desc;
             Product.category := Some category |}].

(** [setup_database]: seeds the product table when it has no row. *)
Definition setup_database (w : World) : World :=
  match products w with
  | [] =>
      {| users := users w;
         products := fold_left seed_product seed_data [];
         orders := orders w; uploads := uploads w; session := session w |}
  | _ :: _ => w
  end.

End Handlers.

(** ** Readings of the runtime, to run the handlers on concrete requests *)

(** [q in s] on Python strings: [q] occurs in [s] as a substring. *)
Fixpoint substring_in (q s : string) : bool :=
  if String.prefix q s then true
  else match s with
       | EmptyString => false
       | String _ s' => substring_in q s'
       end.

Definition lower (c : ascii) : ascii :=
  let n := nat_of_ascii c in
  if (Nat.leb 65 n && Nat.leb n 90)%bool then ascii_of_nat (n + 32) else c.

(** SQLite reads a text as a C string: up to its first NUL. *)
Fixpoint c_text (s : string) : string :=
  match s with
  | EmptyString => EmptyString
  | String c s' =>
      if Nat.eqb (nat_of_ascii c) 0 then EmptyString else String c (c_text s')
  end.

(** Texts are UTF-8: a byte from [0xC0] up starts a character, and the
    bytes [0x80..0xBF] that follow it belong to it. *)
Definition is_continuation (c : ascii) : bool :=
  (Nat.leb 128 (nat_of_ascii c) && Nat.ltb (nat_of_ascii c) 192)%bool.

Definition is_lead (c : ascii) : bool := Nat.leb 192 (nat_of_ascii c).

Arguments is_continuation : simpl never.
Arguments is_lead : simpl never.

(** The continuation bytes at the head of a list of characters. *)
Fixpoint absorb (r : list string) : string * list string :=
  match r with
  | String c EmptyString :: r' =>
      if is_continuation c
      then let (tail, rest) := absorb r' in (String c tail, rest)
      else (EmptyString, r)
  | _ => (EmptyString, r)
  end.

(** The characters of a text, each as its bytes. *)
Fixpoint utf8_chars (s : string) : list string :=
  match s with
  | EmptyString => []
  | String c s' =>
      if is_lead c
      then let (tail, rest) := absorb (utf8_chars s') in String c tail :: rest
      else String c EmptyString :: utf8_chars s'
  end.

(** Two characters match when they are equal, or are the same letter
    of ASCII in either case. *)
Definition char_matches (c d : string) : bool :=
  match c, d with
  | String a EmptyString, String b EmptyString => Ascii.eqb (lower a) (lower b)
  | _, _ => String.eqb c d
  end.

(** Does [f] hold of the text or of what is left of it after some
    characters. *)
Fixpoint any_suffix (f : list string -> bool) (t : list string) : bool :=
  (f t || match t with
          | [] => false
          | _ :: t' => any_suffix f t'
          end)%bool.

(** SQLite's [LIKE], on characters: [%] matches any run of characters,
    [_] any one character, any other character itself, letters of
    ASCII without regard to case. *)
Fixpoint like_chars (pat : list string) : list string -> bool :=
  match pat with
  | [] => fun t => match t with [] => true | _ :: _ => false end
  | c :: pat' =>
      if String.eqb c "%" then any_suffix (like_chars pat')
      else if String.eqb c "_" then
        fun t => match t with
                 | [] => false
                 | _ :: t' => like_chars pat' t'
                 end
      else
        fun t => match t with
                 | [] => false
                 | d :: t' => (char_matches c d && like_chars pat' t')%bool
                 end
  end.

Definition like (pat v : string) : bool :=
  like_chars (utf8_chars (c_text pat)) (utf8_chars (c_text v)).

(** What SQLAlchemy renders [column.contains(q)] to:
    [column LIKE '%' || q || '%'].  (SQLite refuses a pattern of more
    than 50000 bytes: see [pattern_refused].) *)
Definition like_contains (v q : string) : bool :=
  like (String "%" (q ++ String "%" EmptyString)) v.




(** Python's [q in v], the reading of [contains] as a plain substring
    test. *)
Definition substring_contains (v q : string) : bool := substring_in q v.

(** The value of a decimal digit, from its character code. *)
Definition digit_value (c : ascii) : option number :=
  let n := nat_of_ascii c in
  if (Nat.leb 48 n && Nat.leb n 57)%bool then
    Some (nth (n - 48) [0; 1; 2; 3; 4; 5; 6; 7; 8; 9]%float 0%float)
  else None.

Fixpoint digits_value (s : string) (acc : number) : option number :=
  match s with
  | EmptyString => Some acc
  | String c s' =>
      match digit_value c with
      | Some d => digits_value s' (acc * 10 + d)%float
      | None => None
      end
  end.

Fixpoint pow10 (s : string) : number :=
  match s with
  | EmptyString => 1%float
  | String _ s' => (10 * pow10 s')%float
  end.

Fixpoint split_point (s : string) : string * string :=
  match s with
  | EmptyString => (EmptyString, EmptyString)
  | String c s' =>
      if Ascii.eqb c "." then (EmptyString, s')
      else let (a, b) := split_point s' in (String c a, b)
  end.

Definition unsigned_decimal (s : string) : option number :=
  let (whole, frac) := split_point s in
  match (whole ++ frac)%string with
  | EmptyString => None
  | String _ _ as ds =>
      match digits_value ds 0%float with
      | Some m => Some (m / pow10 frac)%float
      | None => None
      end
  end.

(** [float(s)] on the plain decimal notation: an optional sign, digits,
    an optional point and digits.  Python reads more than this (blanks
    around the text, exponents, [inf], [nan], underscores), which this
    reading takes for malformed; it serves to run examples, and nothing
    is proved from it. *)
Definition decimal_float (s : string) : option number :=
  match s with
  | String "-" s' => option_map PrimFloat.opp (unsigned_decimal s')
  | String "+" s' => unsigned_decimal s'
  | _ => unsigned_decimal s
  end.

(** [sum] as the language reference gives it: [start = 0], then [+]
    from left to right. *)
Definition sum_left (l : list number) : number := fold_left num_add l num_zero.

(** A runtime for examples: the hash and the file-name sanitiser are
    stand-ins, as no property looks inside them. *)
Definition example_runtime (c : string -> string -> bool) : Runtime :=
  {| py_float := decimal_float;
     py_sum := sum_left;
     contains := c;
     generate_password_hash := fun p => ("pbkdf2:sha256$" ++ p)%string;
     secure_filename := fun f => f |}.

Definition empty_request (m : Method) : Request :=
  {| method := m; form := fun _ => None; args := fun _ => None;
     files := fun _ => None; referrer := None |}.

Definition empty_session : Session :=
  {| cart := None; flashes := []; user_id := None |}.

Definition empty_world : World :=
  {| users := []; products := []; orders := []; uploads := [];
     session := empty_session |}.

(** The world after [setup_database] on a fresh database, with a cart. *)
Definition seeded_world (c : option (list Z)) : World :=
  set_session (set_cart c empty_session) (setup_database empty_world).

(** ** The session cart as the specification words it *)

(** The cart after [remove(x)]: the sequence without its first [x]. *)
Fixpoint remove_first (x : Z) (l : list Z) : list Z :=
  match l with
  | [] => []
  | y :: r => if y =? x then r else y :: remove_first x r
  end.

Inductive cart_op :=
| op_add (product_id : Z)
| op_remove (product_id : Z).

(** The cart sequence after one operation. *)
Definition cart_after (l : list Z) (op : cart_op) : list Z :=
  match op with
  | op_add x => l ++ [x]
  | op_remove x => remove_first x l
  end.

(** The handler an operation is served by, and the world it leaves. *)
Definition serve_cart_op (w : World) (op : cart_op * Request) : World :=
  match op with
  | (op_add x, req) => snd (add_to_cart x req w)
  | (op_remove x, req) => snd (remove_from_cart x req w)
  end.

Definition serve_cart_ops (ops : list (cart_op * Request)) (w : World)
  : World :=
  fold_left serve_cart_op ops w.

(** ** The priced cart as the specification words it *)

(** The product an id refers to: the row of the table that has the id
    as its key (the first such row, should a table hold a key twice). *)
Definition refers_to (tbl : list Product.row) (i : Z) (p : Product.row)
  : Prop :=
  exists before after : list Product.row,
    tbl = before ++ p :: after
    /\ Product.id p = i
    /\ ~ In i (map Product.id before).

(** The line items of a cart: in cart order, for each entry whose id is
    the key of a product, that product, once per occurrence; an entry
    whose id is no key gives no line item. *)
Inductive cart_lines (tbl : list Product.row)
  : list Z -> list Product.row -> Prop :=
| lines_nil : cart_lines tbl [] []
| lines_product (i : Z) (p : Product.row) (ids : list Z)
    (items : list Product.row) :
    refers_to tbl i p -> cart_lines tbl ids items ->
    cart_lines tbl (i :: ids) (p :: items)
| lines_dangling (i : Z) (ids : list Z) (items : list Product.row) :
    ~ In i (map Product.id tbl) -> cart_lines tbl ids items ->
    cart_lines tbl (i :: ids) items.

(** The line items, computed. *)
Definition resolved (tbl : list Product.row) (cart_ids : list Z)
  : list Product.row :=
  flat_map (fun i => match row_of_key tbl i with
                     | Some p => [p]
                     | None => []
                     end) cart_ids.

(** A request as sent with GET. *)
Definition as_get (req : Request) : Request :=
  {| method := GET; form := form req; args := args req;
     files := files req; referrer := referrer req |}.

(** What [db_add_order] leaves when both fields are there. *)
Definition with_order (w : World) (n a : string) (total : number) : World :=
  {| users := users w; products := products w;
     orders := orders w ++
       [{| Order.id := next_id (map Order.id (orders w));
           Order.customer_name := n; Order.address := a;
           Order.total_price := total; Order.status := "Pending" |}];
     uploads := uploads w; session := session w |}.

(** ** Registration as a step relation *)

Section RegistrationRuns.
Context `{RT : Runtime}.

(** The world a registration request leaves, whether the handler
    returned or raised. *)
Definition register_step (w : World) (req : Request) : World :=
  snd (register req w).

(** The worlds that requests to [/register] lead to from [w0]. *)
Inductive register_reachable (w0 : World) : World -> Prop :=
| reach_start : register_reachable w0 w0
| reach_step (w : World) (req : Request) :
    register_reachable w0 w ->
    register_reachable w0 (register_step w req).

End RegistrationRuns.

(** The first row of the user table is an admin and no later row is. *)
Definition first_is_only_admin (tbl : list User.row) : Prop :=
  match tbl with
  | [] => True
  | first :: later =>
      User.is_admin first = true
      /\ Forall (fun u => User.is_admin u = false) later
  end.

(** ** The catalogue queries as the specification words them *)

Section CatalogQueries.
Context `{RT : Runtime}.

(** [search(text)]: the products whose name or description contains
    the text. *)
Definition search (text : string) (tbl : list Product.row)
  : list Product.row :=
  filter (fun p =>
            contains (Product.name p) text
            || match Product.description p with
               | Some d => contains d text
               | None => false
               end) tbl.

(** [filterByCategory(category)]: the products of exactly that
    category. *)
Definition filterByCategory (category : string) (tbl : list Product.row)
  : list Product.row :=
  filter (fun p => match Product.category p with
                   | Some c => String.eqb c category
                   | None => false
                   end) tbl.

End CatalogQueries.



(** A form or query string given as its fields. *)
Fixpoint fields (kv : list (string * string)) (k : string) : option string :=
  match kv with
  | [] => None
  | (k', v) :: rest => if String.eqb k' k then Some v else fields rest k
  end.

(** ** Worlds and requests to run the handlers on *)

Definition post_form (kv : list (string * string)) : Request :=
  {| method := POST; form := fields kv; args := fun _ => None;
     files := fun _ => None; referrer := None |}.

Definition get_args (kv : list (string * string)) : Request :=
  {| method := GET; form := fun _ => None; args := fields kv;
     files := fun _ => None; referrer := None |}.

Definition plain_runtime : Runtime := example_runtime substring_contains.

(** The runtime in which [contains] is what it is on SQLite. *)
Definition sqlite_runtime : Runtime := example_runtime like_contains.

(** The seeded shop after its first visitor has registered: that
    visitor is logged in and is the admin. *)
Definition admin_world : World :=
  register_step (RT := plain_runtime) (setup_database empty_world)
    (post_form [("username", "root"); ("password", "s3cret")]%string).

(** ** Login, logout and the pages that only read the catalogue *)

(** [werkzeug.security.check_password_hash], given the stored hash and
    the password typed. *)
Class Auth := {
  check_password_hash : string -> string -> bool
}.

Section Accounts.
Context `{RT : Runtime} `{AU : Auth}.

(** [user.check_password(password)]: hashing an absent password
    raises, as in [set_password]. *)
Definition check_password (u : User.row) (password : option string)
  : M bool :=
  match password with
  | Some p => ret (check_password_hash (User.password_hash u) p)
  | None => raise AttributeError
  end.

Definition login (req : Request) : M response :=
  match method req with
  | POST =>
      let username := form req "username"%string in
      let password := form req "password"%string in
      user <- gets (fun w => user_by_username username (users w)) ;;
      (* [user and user.check_password(password)] *)
      accepted <- match user with
                  | Some u => check_password u password
                  | None => ret false
                  end ;;
      match user, accepted with
      | Some u, true =>
          login_user u ;;;
          ret (redirect (url_for home_ep))
      | _, _ =>
          flash "Invalid username or password" "danger" ;;;
          ret (render_template "login.html" no_context)
      end
  | GET => ret (render_template "login.html" no_context)
  end.

End Accounts.

(** [logout_user()]: the session forgets the user id, and keeps the
    rest. *)
Definition logout_user : M unit :=
  modify (fun w =>
    set_session {| cart := cart (session w);
                   flashes := flashes (session w);
                   user_id := None |} w).

Definition logout (req : Request) : M response :=
  user <- gets current_user ;;
  match user with
  | None =>
      (* login_required *)
      flash "Please log in to access this page." "message" ;;;
      ret (redirect (url_for login_ep ++ "?next=%2Flogout"))
  | Some _ =>
      logout_user ;;;
      flash "You have been logged out." "info" ;;;
      ret (redirect (url_for home_ep))
  end.

(** What [home] and [product_detail] answer with. *)
Inductive catalog_response :=
| index_page (featured_products : list Product.row)
| detail_page (product : Product.row)
| abort (code : Z).

(** [Product.query.get_or_404(product_id)], then [detail.html]. *)
Definition product_detail (product_id : Z) : M catalog_response :=
  tbl <- gets products ;;
  found <- lift (query_get tbl product_id) ;;
  match found with
  | Some product => ret (detail_page product)
  | None => ret (abort 404)
  end.

(** [ORDER BY random()]: the database draws a number for each row and
    returns the rows by increasing draw.  The draws are an input here,
    [draw n] being the number drawn for the row at position [n]. *)
Fixpoint insert_by_draw (x : Z * Product.row) (l : list (Z * Product.row))
  : list (Z * Product.row) :=
  match l with
  | [] => [x]
  | y :: r => if fst x <=? fst y then x :: y :: r else y :: insert_by_draw x r
  end.

Definition order_by_random (draw : nat -> Z) (tbl : list Product.row)
  : list Product.row :=
  map snd
    (fold_right insert_by_draw []
       (combine (map draw (seq 0 (List.length tbl))) tbl)).

(** [Product.query.order_by(db.func.random()).limit(3).all()], then
    [index.html]. *)
Definition home (draw : nat -> Z) : M catalog_response :=
  tbl <- gets products ;;
  let featured := firstn 3 (order_by_random draw tbl) in
  ret (index_page featured).

(** [Product.image_url]: the static URL of the image when the product
    names one and the file is in the upload folder, else [None].  The
    names that [secure_filename] returns need no escaping in a URL. *)
Definition image_url (p : Product.row) (w : World) : option string :=
  match Product.image p with
  | Some (String a s) =>
      if existsb (String.eqb (String a s)) (uploads w)
      then Some ("/static/images/" ++ String a s)%string
      else None
  | _ => None
  end.

(** An [Auth] for examples, matching the stand-in hash of
    [example_runtime]. *)
Definition example_auth : Auth :=
  {| check_password_hash :=
       fun h p => String.eqb h ("pbkdf2:sha256$" ++ p)%string |}.

(** ** The application as a whole *)

(** The URL rules of the application. *)
Inductive route :=
| register_route
| login_route
| logout_route
| home_route
| shop_page_route
| product_detail_route (product_id : Z)
| add_to_cart_route (product_id : Z)
| view_cart_route
| remove_from_cart_route (product_id : Z)
| checkout_route
| admin_panel_route.

(** The rules declared with [methods=['GET', 'POST']]. *)
Definition accepts_post (r : route) : bool :=
  match r with
  | register_route | login_route | checkout_route | admin_panel_route => true
  | _ => false
  end.

(** The [int] converter of a rule matches digits only: no negative id
    reaches a view. *)
Definition route_matches (r : route) : bool :=
  match r with
  | product_detail_route i | add_to_cart_route i | remove_from_cart_route i =>
      0 <=? i
  | _ => true
  end.

Section Application.
Context `{RT : Runtime} `{AU : Auth}.

(** The world a request leaves: that of the view the rule names, or the
    world as it was when the rule does not match (404) or does not
    take the method (405).  [draw] is what the database draws if the
    view orders by [random()]. *)
Definition dispatch (r : route) (req : Request) (draw : nat -> Z) (w : World)
  : World :=
  if negb (route_matches r) then w
  else match method req, accepts_post r with
       | POST, false => w
       | _, _ =>
           match r with
           | register_route => snd (register req w)
           | login_route => snd (login req w)
           | logout_route => snd (logout req w)
           | home_route => snd (home draw w)
           | shop_page_route => snd (shop_page req w)
           | product_detail_route i => snd (product_detail i w)
           | add_to_cart_route i => snd (add_to_cart i req w)
           | view_cart_route => snd (view_cart req w)
           | remove_from_cart_route i => snd (remove_from_cart i req w)
           | checkout_route => snd (checkout req w)
           | admin_panel_route => snd (admin_panel req w)
           end
       end.

(** The worlds that requests lead to from [w0]. *)
Inductive reachable (w0 : World) : World -> Prop :=
| reachable_start : reachable w0 w0
| reachable_request (w : World) (r : route) (req : Request) (draw : nat -> Z) :
    reachable w0 w -> reachable w0 (dispatch r req draw w).

End Application.

(** What the constraints of the three tables ask of a world: keys
    distinct in each table, user names distinct. *)
Definition constraints_hold (w : World) : Prop :=
  NoDup (map User.id (users w))
  /\ NoDup (map User.username (users w))
  /\ NoDup (map Product.id (products w))
  /\ NoDup (map Order.id (orders w)).

(** More worlds and requests for examples. *)

Definition root_user : User.row :=
  {| User.id := 1; User.username := "root";
     User.password_hash := "pbkdf2:sha256$s3cret";
     User.is_admin := true |}.

(** [admin_world] after a second visitor has registered and is the one
    logged in. *)
Definition bob_world : World :=
  register_step (RT := plain_runtime) admin_world
    (post_form [("username", "bob"); ("password", "hunter2")]%string).

(** A product form with an image attached. *)
Definition post_upload (kv : list (string * string)) (filename : string)
  : Request :=
  {| method := POST; form := fields kv; args := fun _ => None;
     files := fields [("product_image"%string, filename)];
     referrer := None |}.

(** * Properties *)

Ltac run_monad :=
  unfold flash, session_set_cart, session_pop_cart;
  unfold bind, gets, modify, ret, raise, lift; cbn.

(** ** The session cart *)

Section CartProperties.

Lemma py_in_In (x : Z) (l : list Z) : py_in x l = true <-> In x l.
Proof.
  unfold py_in. rewrite existsb_exists. split.
  - intros (y & Hy & E). apply Z.eqb_eq in E. now subst.
  - intros H. exists x. split; [assumption | apply Z.eqb_refl].
Qed.

Lemma list_remove_present (x : Z) (l : list Z) :
  In x l -> list_remove x l = Ok (remove_first x l).
Proof.
  induction l as [|y r IH]; cbn; [easy|].
  intros [->|H].
  - now rewrite Z.eqb_refl.
  - destruct (y =? x); [reflexivity|]. now rewrite IH.
Qed.

Lemma remove_first_absent (x : Z) (l : list Z) :
  ~ In x l -> remove_first x l = l.
Proof.
  induction l as [|y r IH]; cbn; [easy|].
  intros H. destruct (Z.eqb_spec y x) as [->|_].
  - exfalso. apply H. now left.
  - f_equal. apply IH. intros Hin. apply H. now right.
Qed.

Lemma remove_first_split (x : Z) (l1 l2 : list Z) :
  ~ In x l1 -> remove_first x (l1 ++ x :: l2) = l1 ++ l2.
Proof.
  induction l1 as [|y r IH]; cbn; intros H.
  - now rewrite Z.eqb_refl.
  - destruct (Z.eqb_spec y x) as [->|_].
    + exfalso. apply H. now left.
    + f_equal. apply IH. intros Hin. apply H. now right.
Qed.

Lemma first_occurrence (x : Z) (l : list Z) :
  In x l -> exists l1 l2, l = l1 ++ x :: l2 /\ ~ In x l1.
Proof.
  induction l as [|y r IH]; [easy|].
  intros Hin. destruct (Z.eq_dec y x) as [->|Hne].
  - exists [], r. now split.
  - destruct Hin as [E|Hin]; [contradiction|].
    destruct (IH Hin) as (l1 & l2 & -> & Hl1).
    exists (y :: l1), l2. split; [reflexivity|].
    intros [E|H]; [contradiction | now apply Hl1].
Qed.

(** [add_to_cart] returns, and appends the id to the cart sequence. *)
Lemma add_to_cart_cart (x : Z) (req : Request) (w : World) :
  exists r, fst (add_to_cart x req w) = Ok r /\
  cart (session (snd (add_to_cart x req w))) = Some (session_get_cart w ++ [x]).
Proof.
  unfold add_to_cart, session_get_cart. run_monad.
  destruct (cart (session w)) eqn:E; cbn; rewrite ?E;
    eexists; split; reflexivity.
Qed.

(** [remove_from_cart] returns, and leaves the cart sequence without
    its first occurrence of the id. *)
Lemma remove_from_cart_cart (x : Z) (req : Request) (w : World) :
  fst (remove_from_cart x req w) = Ok (redirect (url_for view_cart_ep)) /\
  session_get_cart (snd (remove_from_cart x req w))
  = remove_first x (session_get_cart w).
Proof.
  unfold remove_from_cart, session_get_cart. run_monad.
  destruct (cart (session w)) as [l|] eqn:Ec; cbn; [|now rewrite Ec].
  destruct (py_in x l) eqn:E.
  - apply py_in_In in E. rewrite (list_remove_present x l E). cbn. now split.
  - cbn. rewrite Ec. split; [reflexivity|]. symmetry.
    apply remove_first_absent.
    intros H. apply py_in_In in H. congruence.
Qed.

(** Removing an id that is not in the cart changes nothing at all. *)
Lemma remove_from_cart_absent (x : Z) (req : Request) (w : World) :
  ~ In x (session_get_cart w) -> snd (remove_from_cart x req w) = w.
Proof.
  unfold remove_from_cart, session_get_cart. run_monad.
  destruct (cart (session w)) as [l|]; cbn; [|reflexivity].
  intros H. destruct (py_in x l) eqn:E; [|reflexivity].
  apply py_in_In in E. contradiction.
Qed.

Lemma serve_cart_op_cart (w : World) (op : cart_op * Request) :
  session_get_cart (serve_cart_op w op)
  = cart_after (session_get_cart w) (fst op).
Proof.
  destruct op as [[x|x] req]; cbn [serve_cart_op fst cart_after].
  - destruct (add_to_cart_cart x req w) as (r & _ & H).
    unfold session_get_cart at 1. now rewrite H.
  - apply remove_from_cart_cart.
Qed.

Lemma serve_cart_ops_cart (ops : list (cart_op * Request)) (w : World) :
  session_get_cart (serve_cart_ops ops w)
  = fold_left cart_after (map fst ops) (session_get_cart w).
Proof.
  unfold serve_cart_ops. revert w.
  induction ops as [|op ops IH]; intros w; cbn [fold_left map]; [reflexivity|].
  rewrite IH. now rewrite serve_cart_op_cart.
Qed.

(** C8. After any sequence of add and remove requests the cart badge
    [count()] is the number of entries of the cart sequence, duplicates
    counted, where the sequence is the one the operations give: an add
    appends, a remove drops the first match.  A remove of an id that is
    not in the sequence leaves the sequence, and the whole world,
    unchanged. *)
Theorem cart_count_tracks_sequence :
  (forall (ops : list (cart_op * Request)) (w : World),
      session_get_cart (serve_cart_ops ops w)
      = fold_left cart_after (map fst ops) (session_get_cart w)
      /\ inject_cart_count (serve_cart_ops ops w)
         = Z.of_nat (List.length
             (fold_left cart_after (map fst ops) (session_get_cart w))))
  /\ (forall (x : Z) (req : Request) (w : World),
         inject_cart_count (snd (add_to_cart x req w))
         = inject_cart_count w + 1)
  /\ (forall (x : Z) (req : Request) (w : World),
         ~ In x (session_get_cart w) ->
         snd (remove_from_cart x req w) = w
         /\ cart (session (snd (remove_from_cart x req w))) = cart (session w)
         /\ inject_cart_count (snd (remove_from_cart x req w))
            = inject_cart_count w).
Proof.
  split; [|split].
  - intros ops w. unfold inject_cart_count.
    now rewrite serve_cart_ops_cart.
  - intros x req w. unfold inject_cart_count.
    destruct (add_to_cart_cart x req w) as (r & _ & H).
    unfold session_get_cart at 1. rewrite H.
    rewrite length_app. cbn. lia.
  - intros x req w H.
    now rewrite (remove_from_cart_absent x req w H).
Qed.

(** C9. When the cart holds the id at least twice, [remove_from_cart]
    deletes its first occurrence only: the cart [l1 ++ x :: l2], with no
    [x] in [l1], becomes [l1 ++ l2], and [x] is still in [l2]. *)
Theorem remove_deletes_first_occurrence_only
    (x : Z) (req : Request) (w : World) (l : list Z) :
  cart (session w) = Some l ->
  (2 <= count_occ Z.eq_dec l x)%nat ->
  exists l1 l2,
    l = l1 ++ x :: l2 /\ ~ In x l1 /\ In x l2
    /\ fst (remove_from_cart x req w) = Ok (redirect (url_for view_cart_ep))
    /\ cart (session (snd (remove_from_cart x req w))) = Some (l1 ++ l2)
    /\ count_occ Z.eq_dec (l1 ++ l2) x = (count_occ Z.eq_dec l x - 1)%nat.
Proof.
  intros Hc Hn.
  assert (Hin : In x l) by (apply (count_occ_In Z.eq_dec); lia).
  destruct (first_occurrence x l Hin) as (l1 & l2 & -> & Hl1).
  exists l1, l2.
  assert (Hocc : count_occ Z.eq_dec (l1 ++ x :: l2) x
                 = S (count_occ Z.eq_dec l2 x)).
  { rewrite count_occ_app, count_occ_cons_eq by reflexivity.
    apply (count_occ_not_In Z.eq_dec) in Hl1. lia. }
  assert (Hl2 : In x l2) by (apply (count_occ_In Z.eq_dec); lia).
  repeat split; try assumption.
  - apply remove_from_cart_cart.
  - unfold remove_from_cart. run_monad. rewrite Hc.
    assert (E : py_in x (l1 ++ x :: l2) = true) by now apply py_in_In.
    rewrite E, (list_remove_present _ _ Hin). cbn.
    now rewrite remove_first_split.
  - rewrite Hocc, count_occ_app.
    apply (count_occ_not_In Z.eq_dec) in Hl1. lia.
Qed.

End CartProperties.

(** ** Pricing *)

Section Pricing.
Context `{RT : Runtime}.

Lemma row_of_key_id (tbl : list Product.row) (i : Z) (p : Product.row) :
  row_of_key tbl i = Some p -> Product.id p = i /\ In p tbl.
Proof.
  unfold row_of_key. intros H. apply find_some in H.
  destruct H as [Hin E]. apply Z.eqb_eq in E. now split.
Qed.

Lemma row_of_key_none (tbl : list Product.row) (i : Z) :
  row_of_key tbl i = None <-> ~ In i (map Product.id tbl).
Proof.
  unfold row_of_key. split.
  - intros H Hin. apply in_map_iff in Hin. destruct Hin as (p & <- & Hp).
    apply (find_none _ _ H) in Hp. now rewrite Z.eqb_refl in Hp.
  - intros H. destruct (find _ tbl) as [p|] eqn:E; [|reflexivity].
    apply find_some in E. destruct E as [Hin E]. apply Z.eqb_eq in E.
    exfalso. apply H. rewrite <- E. now apply in_map.
Qed.

(** The row that the lookup returns is the one the id refers to. *)
Lemma row_of_key_refers (tbl : list Product.row) (i : Z) (p : Product.row) :
  row_of_key tbl i = Some p <-> refers_to tbl i p.
Proof.
  unfold row_of_key, refers_to. induction tbl as [|r tbl IH]; cbn.
  - split; [discriminate|]. intros (b & a & E & _).
    now destruct b.
  - destruct (Z.eqb_spec (Product.id r) i) as [Hr|Hr].
    + split.
      * intros E. injection E as ->. exists [], tbl. now repeat split.
      * intros (b & a & E & Hp & Hb). destruct b as [|r' b]; cbn in E.
        -- now injection E as ->.
        -- injection E as -> _. exfalso. apply Hb. now left.
    + rewrite IH. split.
      * intros (b & a & -> & Hp & Hb). exists (r :: b), a.
        repeat split; [assumption|]. intros [E|H]; [contradiction | auto].
      * intros (b & a & E & Hp & Hb). destruct b as [|r' b]; cbn in E.
        -- injection E as -> _. contradiction.
        -- injection E as -> ->. exists b, a. repeat split; [assumption|].
           intros H. apply Hb. now right.
Qed.

(** What [resolved] computes are the line items of the cart. *)
Lemma resolved_lines (tbl : list Product.row) (cart_ids : list Z) :
  cart_lines tbl cart_ids (resolved tbl cart_ids).
Proof.
  induction cart_ids as [|i r IH]; [constructor|].
  cbn. destruct (row_of_key tbl i) as [p|] eqn:E; cbn.
  - constructor; [now apply row_of_key_refers | exact IH].
  - apply lines_dangling; [now apply row_of_key_none | exact IH].
Qed.

(** The table and the cart determine the line items. *)
Lemma cart_lines_resolved (tbl : list Product.row) (cart_ids : list Z)
    (items : list Product.row) :
  cart_lines tbl cart_ids items -> items = resolved tbl cart_ids.
Proof.
  induction 1 as [|i p ids items Hp _ IH|i ids items Hi _ IH]; cbn.
  - reflexivity.
  - apply row_of_key_refers in Hp. rewrite Hp. cbn. now f_equal.
  - apply row_of_key_none in Hi. now rewrite Hi.
Qed.

Lemma resolved_app (tbl : list Product.row) (l1 l2 : list Z) :
  resolved tbl (l1 ++ l2) = resolved tbl l1 ++ resolved tbl l2.
Proof. apply flat_map_app. Qed.

Lemma resolved_ids (tbl : list Product.row) (cart_ids : list Z) :
  map Product.id (resolved tbl cart_ids)
  = filter (fun i => truthy (row_of_key tbl i)) cart_ids.
Proof.
  induction cart_ids as [|i r IH]; [reflexivity|].
  cbn. destruct (row_of_key tbl i) as [p|] eqn:E; cbn.
  - f_equal; [|exact IH]. now apply row_of_key_id in E.
  - exact IH.
Qed.

Lemma query_get_bindable (tbl : list Product.row) (i : Z) :
  int64 i = true -> query_get tbl i = Ok (row_of_key tbl i).
Proof. unfold query_get. now intros ->. Qed.

Lemma query_get_unbindable (tbl : list Product.row) (i : Z) :
  int64 i = false -> query_get tbl i = Raise OverflowError.
Proof. unfold query_get. now intros ->. Qed.

(** The loop of [view_cart], from any accumulator, on ids that SQLite
    can bind. *)
Lemma view_cart_loop_from_bindable (tbl : list Product.row)
    (cart_ids : list Z) (items : list Product.row) (total : number) :
  Forall (fun i => int64 i = true) cart_ids ->
  view_cart_loop_from tbl cart_ids (items, total)
  = Ok (items ++ resolved tbl cart_ids,
        fold_left num_add (map Product.price (resolved tbl cart_ids)) total).
Proof.
  intros H. revert items total.
  induction H as [|i r Hi _ IH]; intros items total; cbn.
  - now rewrite app_nil_r.
  - unfold view_cart_step. rewrite (query_get_bindable tbl i Hi).
    destruct (row_of_key tbl i) as [p|]; cbn [fst snd].
    + rewrite IH. cbn. now rewrite <- app_assoc.
    + apply IH.
Qed.

(** An id that SQLite cannot bind ends the loop in [OverflowError]. *)
Lemma view_cart_loop_from_unbindable (tbl : list Product.row)
    (cart_ids : list Z) (acc : list Product.row * number) :
  Exists (fun i => int64 i = false) cart_ids ->
  view_cart_loop_from tbl cart_ids acc = Raise OverflowError.
Proof.
  revert acc. induction cart_ids as [|i r IH]; intros acc H.
  - inversion H.
  - cbn. unfold view_cart_step, query_get.
    destruct (int64 i) eqn:Hi; [|reflexivity].
    assert (Hr : Exists (fun i => int64 i = false) r)
      by (inversion H; subst; [congruence | assumption]).
    destruct (row_of_key tbl i); now apply IH.
Qed.

(** The comprehension of [checkout] on ids that SQLite can bind:
    [.price] is only reached on an id that resolves. *)
Lemma checkout_prices_bindable (tbl : list Product.row) (cart_ids : list Z) :
  Forall (fun i => int64 i = true) cart_ids ->
  checkout_prices tbl cart_ids
  = Ok (map Product.price (resolved tbl cart_ids)).
Proof.
  induction 1 as [|i r Hi _ IH]; [reflexivity|].
  cbn. rewrite (query_get_bindable tbl i Hi).
  destruct (row_of_key tbl i) as [p|]; cbn; now rewrite IH.
Qed.

Lemma checkout_prices_unbindable (tbl : list Product.row) (cart_ids : list Z) :
  Exists (fun i => int64 i = false) cart_ids ->
  checkout_prices tbl cart_ids = Raise OverflowError.
Proof.
  induction cart_ids as [|i r IH]; intros H.
  - inversion H.
  - cbn. unfold query_get.
    destruct (int64 i) eqn:Hi; [|reflexivity].
    assert (Hr : Exists (fun i => int64 i = false) r)
      by (inversion H; subst; [congruence | assumption]).
    destruct (row_of_key tbl i) as [p|]; cbn; now rewrite (IH Hr).
Qed.

(** Every id of a cart can be bound, or one cannot. *)
Lemma bindable_or_not (cart_ids : list Z) :
  Forall (fun i => int64 i = true) cart_ids
  \/ Exists (fun i => int64 i = false) cart_ids.
Proof.
  induction cart_ids as [|i r [IH|IH]].
  - left. constructor.
  - destruct (int64 i) eqn:Hi.
    + left. now constructor.
    + right. now constructor.
  - right. now constructor.
Qed.

(** The comprehension returns the prices of the line items or raises
    [OverflowError], nothing else. *)
Lemma checkout_prices_cases (tbl : list Product.row) (cart_ids : list Z) :
  (Forall (fun i => int64 i = true) cart_ids
   /\ checkout_prices tbl cart_ids
      = Ok (map Product.price (resolved tbl cart_ids)))
  \/ (Exists (fun i => int64 i = false) cart_ids
      /\ checkout_prices tbl cart_ids = Raise OverflowError).
Proof.
  destruct (bindable_or_not cart_ids) as [H|H].
  - left. split; [assumption | now apply checkout_prices_bindable].
  - right. split; [assumption | now apply checkout_prices_unbindable].
Qed.

(** [checkout] on a cart that is not empty, step by step. *)
Lemma checkout_nonempty (req : Request) (w : World) :
  session_get_cart w <> [] ->
  checkout req w =
  match checkout_prices (products w) (session_get_cart w) with
  | Raise e => (Raise e, w)
  | Ok prices =>
      match method req with
      | POST =>
          (db_add_order (form req "name"%string) (form req "address"%string)
                        (py_sum prices) ;;;
           session_pop_cart ;;;
           ret (render_template "success.html"
                  (name_ctx (form req "name"%string)))) w
      | GET =>
          (Ok (render_template "checkout.html" (total_ctx (py_sum prices))),
           w)
      end
  end.
Proof.
  intros Hne. unfold checkout at 1.
  unfold bind at 1. unfold gets at 1.
  destruct (session_get_cart w) as [|i r] eqn:E; [contradiction|].
  unfold bind at 1. unfold gets at 1.
  unfold bind at 1. unfold lift at 1.
  destruct (checkout_prices (products w) (i :: r)); [|reflexivity].
  destruct (method req); reflexivity.
Qed.

(** What a POST with both fields and a total that is a number does on
    a cart that is not empty and can be priced. *)
Lemma checkout_post_success
    (req : Request) (w : World) (n a : string) (prices : list number) :
  session_get_cart w <> [] -> method req = POST ->
  form req "name"%string = Some n -> form req "address"%string = Some a ->
  checkout_prices (products w) (session_get_cart w) = Ok prices ->
  PrimFloat.is_nan (py_sum prices) = false ->
  checkout req w
  = (Ok (render_template "success.html" (name_ctx (Some n))),
     set_session (set_cart None (session w))
       (with_order w n a (py_sum prices))).
Proof.
  intros Hne Hm Hn Ha Hp Hnan.
  rewrite (checkout_nonempty req w Hne), Hp, Hm, Hn, Ha.
  unfold db_add_order. rewrite Hnan. reflexivity.
Qed.

(** C1, on the code.  In the seeded shop, a cart of the mug, the id 99
    that no product has, and the keycaps is priced at the checkout as
    the mug and the keycaps: the dangling id is skipped.  A cart of
    the mug and the id 2^63, which [/add_to_cart] accepts as it does
    any id, is not priced: the lookup of 2^63 ends [/checkout] in an
    uncaught [OverflowError], on GET and on POST, and nothing is
    written. *)
Theorem checkout_raises_on_unbindable_id :
  checkout (RT := plain_runtime) (get_args [])
    (seeded_world (Some [8; 99; 1]))
  = (Ok (render_template "checkout.html"
           (total_ctx (sum_left [22%float; 49.99%float]))),
     seeded_world (Some [8; 99; 1]))
  /\ session_get_cart
       (snd (add_to_cart (2 ^ 63) (get_args []) (seeded_world (Some [8]))))
     = [8; 2 ^ 63]
  /\ checkout (RT := plain_runtime) (get_args [])
       (seeded_world (Some [8; 2 ^ 63]))
     = (Raise OverflowError, seeded_world (Some [8; 2 ^ 63]))
  /\ checkout (RT := plain_runtime)
       (post_form [("name", "Ada"); ("address", "1 Main Street")]%string)
       (seeded_world (Some [8; 2 ^ 63]))
     = (Raise OverflowError, seeded_world (Some [8; 2 ^ 63])).
Proof.
  repeat split; vm_compute; reflexivity.
Qed.

(** C10, on the code.  In the seeded shop, the cart page of a cart of
    the mug, the id 99 and the mug again lists the mug twice and a
    total of their two prices.  For a cart of the mug and the id 2^63
    there is no cart page: the lookup of 2^63 ends [/cart] in an
    uncaught [OverflowError]. *)
Theorem view_cart_raises_on_unbindable_id :
  (exists mug : Product.row,
      refers_to (products (seeded_world None)) 8 mug
      /\ view_cart (get_args []) (seeded_world (Some [8; 99; 8]))
         = (Ok (render_template "cart.html"
                  (cart_ctx [mug; mug]
                     (num_add (num_add num_zero (Product.price mug))
                              (Product.price mug)))),
            seeded_world (Some [8; 99; 8])))
  /\ view_cart (get_args []) (seeded_world (Some [8; 2 ^ 63]))
     = (Raise OverflowError, seeded_world (Some [8; 2 ^ 63])).
Proof.
  split.
  - eexists. split.
    + apply row_of_key_refers. vm_compute. reflexivity.
    + vm_compute. reflexivity.
  - vm_compute. reflexivity.
Qed.

(** C2. On a cart that is not empty, every POST to [/checkout] that
    succeeds carried a name and an address; it leaves the session
    without a cart, adds exactly one row to the order table and
    changes neither the products nor the users; the row's
    [total_price] is the total recomputed from the catalogue at
    submission, the sum of the prices of the cart's line items, which
    is the value a GET of [/checkout] shows in the same state.  And a
    POST does succeed when it carries both fields and the value that
    the GET shows is a number. *)
Theorem checkout_post_creates_one_order (req : Request) (w : World) :
  session_get_cart w <> [] ->
  method req = POST ->
  (forall (r : response) (w' : World),
      checkout req w = (Ok r, w') ->
      exists (n a : string) (o : Order.row) (items : list Product.row),
        form req "name"%string = Some n
        /\ form req "address"%string = Some a
        /\ r = render_template "success.html" (name_ctx (Some n))
        /\ cart (session w') = None
        /\ session_get_cart w' = []
        /\ orders w' = orders w ++ [o]
        /\ products w' = products w
        /\ users w' = users w
        /\ Order.customer_name o = n
        /\ Order.address o = a
        /\ cart_lines (products w) (session_get_cart w) items
        /\ Order.total_price o = py_sum (map Product.price items)
        /\ checkout (as_get req) w
           = (Ok (render_template "checkout.html"
                    (total_ctx (Order.total_price o))), w))
  /\ (forall (n a : string) (t : number),
         form req "name"%string = Some n ->
         form req "address"%string = Some a ->
         checkout (as_get req) w
         = (Ok (render_template "checkout.html" (total_ctx t)), w) ->
         PrimFloat.is_nan t = false ->
         exists (o : Order.row) (w' : World),
           checkout req w
           = (Ok (render_template "success.html" (name_ctx (Some n))), w')
           /\ orders w' = orders w ++ [o]
           /\ Order.total_price o = t
           /\ cart (session w') = None).
Proof.
  intros Hne Hm.
  assert (Hget : forall prices,
             checkout_prices (products w) (session_get_cart w) = Ok prices ->
             checkout (as_get req) w
             = (Ok (render_template "checkout.html"
                      (total_ctx (py_sum prices))), w)).
  { intros prices Hp. now rewrite (checkout_nonempty _ w Hne), Hp. }
  split.
  - intros r w' Hrun.
    rewrite (checkout_nonempty req w Hne), Hm in Hrun.
    destruct (checkout_prices_cases (products w) (session_get_cart w))
      as [[_ Hp] | [_ Hp]]; rewrite Hp in Hrun; [|discriminate].
    unfold db_add_order in Hrun.
    destruct (form req "name"%string) as [n|];
      [destruct (form req "address"%string) as [a|]|];
      try discriminate.
    destruct (PrimFloat.is_nan (py_sum _)) eqn:Hnan; [discriminate|].
    injection Hrun as <- <-.
    exists n, a. eexists. exists (resolved (products w) (session_get_cart w)).
    repeat split; try reflexivity.
    + apply resolved_lines.
    + cbn [Order.total_price]. now apply Hget.
  - intros n a t Hn Ha Hshown Hnan.
    destruct (checkout_prices_cases (products w) (session_get_cart w))
      as [[_ Hp] | [_ Hp]].
    + rewrite (Hget _ Hp) in Hshown. injection Hshown as <-.
      rewrite (checkout_post_success req w n a _ Hne Hm Hn Ha Hp Hnan).
      do 2 eexists. repeat split.
    + rewrite (checkout_nonempty _ w Hne), Hp in Hshown. discriminate.
Qed.

(** C3. A request to [/checkout], GET or POST, on an empty cart is
    answered by a redirect to the shop with a warning flashed; it
    creates no order and leaves the cart, the three tables and the
    uploads as they were. *)
Theorem checkout_empty_cart_changes_nothing (req : Request) (w : World) :
  session_get_cart w = [] ->
  exists w' : World,
    checkout req w = (Ok (redirect (url_for shop_page_ep)), w')
    /\ orders w' = orders w
    /\ products w' = products w
    /\ users w' = users w
    /\ uploads w' = uploads w
    /\ cart (session w') = cart (session w)
    /\ user_id (session w') = user_id (session w)
    /\ flashes (session w')
       = flashes (session w) ++ [("warning", "Your cart is empty.")]%string.
Proof.
  intros He. unfold checkout. run_monad. rewrite He.
  eexists. repeat split.
Qed.

(** Without a name or without an address the insert of the order
    fails: the request ends in an [IntegrityError] that nothing
    catches, with the cart and the tables as they were. *)
Lemma checkout_post_missing_field (req : Request) (w : World) :
  session_get_cart w <> [] ->
  Forall (fun i => int64 i = true) (session_get_cart w) ->
  method req = POST ->
  form req "name"%string = None \/ form req "address"%string = None ->
  checkout req w = (Raise IntegrityError, w).
Proof.
  intros Hne Hb Hm H.
  rewrite (checkout_nonempty req w Hne), (checkout_prices_bindable _ _ Hb), Hm.
  unfold db_add_order.
  destruct H as [-> | ->]; [|destruct (form req "name"%string)];
    reflexivity.
Qed.

End Pricing.

(** ** Registration *)

Section Registration.
Context `{RT : Runtime}.

(** A registration request either leaves the user table as it is or
    appends one row, which is an admin exactly when the table was
    empty. *)
Lemma register_users (req : Request) (w : World) :
  users (snd (register req w)) = users w
  \/ exists u : User.row,
       users (snd (register req w)) = users w ++ [u]
       /\ User.is_admin u = match users w with [] => true | _ :: _ => false end
       /\ fst (register req w) = Ok (redirect (url_for home_ep)).
Proof.
  unfold register. destruct (method req); [now left|].
  unfold set_password, db_add_user, login_user. run_monad.
  destruct (truthy (user_by_username _ _)); [now left|].
  destruct (form req "password"%string) as [p|]; [|now left].
  destruct (form req "username"%string) as [n|]; [|now left].
  right. eexists. cbn. split; [reflexivity|]. split; [|reflexivity].
  now destruct (users w).
Qed.

Lemma first_is_only_admin_snoc (tbl : list User.row) (u : User.row) :
  first_is_only_admin tbl ->
  User.is_admin u = match tbl with [] => true | _ :: _ => false end ->
  first_is_only_admin (tbl ++ [u]).
Proof.
  destruct tbl as [|f later]; cbn.
  - intros _ H. split; [assumption | constructor].
  - intros [Hf Hl] Hu. split; [assumption|].
    apply Forall_app. split; [assumption|]. now constructor.
Qed.

Lemma register_step_invariant (w : World) (req : Request) :
  first_is_only_admin (users w) ->
  first_is_only_admin (users (register_step w req)).
Proof.
  intros H. unfold register_step.
  destruct (register_users req w) as [E | (u & E & Hu & _)]; rewrite E.
  - assumption.
  - now apply first_is_only_admin_snoc.
Qed.

(** The user table only grows, at its end: the first row stays first. *)
Lemma register_reachable_prefix (w0 w : World) :
  register_reachable w0 w -> exists l, users w = users w0 ++ l.
Proof.
  induction 1 as [|w req _ (l & IH)].
  - exists []. now rewrite app_nil_r.
  - unfold register_step.
    destruct (register_users req w) as [E | (u & E & _)]; rewrite E, IH.
    + now exists l.
    + exists (l ++ [u]). now rewrite app_assoc.
Qed.

(** C4. From an empty user table, in every world that registration
    requests lead to, the first registered user is an admin and every
    user registered after is not; and a registration with a free name
    and a password does succeed, appending a user who is an admin
    exactly when the table was empty. *)
Theorem first_registered_user_is_admin (w0 w : World) :
  users w0 = [] ->
  register_reachable w0 w ->
  first_is_only_admin (users w)
  /\ (forall (req : Request) (name password : string),
         method req = POST ->
         form req "username"%string = Some name ->
         form req "password"%string = Some password ->
         user_by_username (Some name) (users w) = None ->
         exists u : User.row,
           fst (register req w) = Ok (redirect (url_for home_ep))
           /\ users (register_step w req) = users w ++ [u]
           /\ User.username u = name
           /\ User.is_admin u
              = match users w with [] => true | _ :: _ => false end).
Proof.
  intros H0 Hr. split.
  - induction Hr as [|w req _ IH].
    + now rewrite H0.
    + now apply register_step_invariant.
  - intros req name password Hm Hn Hp Hfree.
    unfold register_step, register. rewrite Hm, Hn, Hp.
    unfold set_password, db_add_user, login_user. run_monad.
    unfold user_by_username in Hfree. rewrite Hfree. cbn.
    eexists. split; [reflexivity|]. split; [reflexivity|].
    split; [reflexivity|]. now destruct (users w).
Qed.

End Registration.

(** ** The shop listing *)

Section Shop.
Context `{RT : Runtime}.







End Shop.

(** *** [LIKE] and the substring test *)












(** ** Admin product creation and checkout without a field *)

(** C6, on the code.  In the seeded shop with its admin logged in, a
    product form whose price is [abc] ends in an uncaught [ValueError]:
    no message is flashed, nothing is rendered, and the world is as it
    was.  A form whose price is [-5] creates a product priced [-5]. *)
Theorem admin_price_not_validated :
  admin_panel (RT := plain_runtime)
    (post_form [("product_name", "Mug"); ("product_price", "abc")]%string)
    admin_world
  = (Raise ValueError, admin_world)
  /\ map Product.price
       (products
          (snd (admin_panel (RT := plain_runtime)
                  (post_form [("product_name", "Mug");
                              ("product_price", "-5")]%string)
                  admin_world)))
     = map Product.price (products admin_world) ++ [(-5)%float].
Proof.
  split.
  - vm_compute. reflexivity.
  - vm_compute. reflexivity.
Qed.

(** C7, on the code.  With the mug in the cart, a POST to [/checkout]
    that carries an address and no name, or a name and no address, ends
    in an uncaught [IntegrityError]; the cart and the tables are as they
    were. *)
Theorem checkout_missing_field_raises :
  checkout (RT := plain_runtime)
    (post_form [("address", "1 Main Street")]%string)
    (seeded_world (Some [8]))
  = (Raise IntegrityError, seeded_world (Some [8]))
  /\ checkout (RT := plain_runtime)
       (post_form [("name", "Ada")]%string)
       (seeded_world (Some [8]))
     = (Raise IntegrityError, seeded_world (Some [8])).
Proof.
  split; apply checkout_post_missing_field;
    solve [discriminate | repeat constructor | reflexivity
          | now left | now right].
Qed.

(** * Further properties of the handlers *)

(** ** Primary keys and lookups *)

Lemma next_id_above (ids : list Z) (i : Z) : In i ids -> i < next_id ids.
Proof.
  unfold next_id. induction ids as [|j r IH]; cbn; [easy|].
  intros [->|H]; [lia|]. specialize (IH H). lia.
Qed.

Lemma next_id_fresh (ids : list Z) : ~ In (next_id ids) ids.
Proof. intros H. apply next_id_above in H. lia. Qed.



(** ** The admin gate and product creation *)

Section AdminGate.
Context `{RT : Runtime}.

(** X1. A visitor who is not logged in, or is logged in without the
    admin flag, gets a redirect and one flashed message from [/admin],
    whatever the method and the form: no product is created, no file is
    stored, and the tables, the cart and the login are as they were. *)
Theorem admin_panel_denied (req : Request) (w : World) :
  current_user w = None
  \/ (exists u, current_user w = Some u /\ User.is_admin u = false) ->
  exists (w' : World) (location : string) (message : string * string),
    admin_panel req w = (Ok (redirect location), w')
    /\ products w' = products w
    /\ users w' = users w
    /\ orders w' = orders w
    /\ uploads w' = uploads w
    /\ cart (session w') = cart (session w)
    /\ user_id (session w') = user_id (session w)
    /\ flashes (session w') = flashes (session w) ++ [message].
Proof.
  intros H. unfold admin_panel. unfold bind at 1. unfold gets at 1.
  destruct H as [-> | (u & -> & Hu)].
  - run_monad. do 3 eexists. repeat split.
  - rewrite Hu. run_monad. do 3 eexists. repeat split.
Qed.

(** The file system takes the name: it is not empty and not longer
    than [name_max]. *)
Definition storable (filename : string) : Prop :=
  filename <> EmptyString /\ (String.length filename <= name_max)%nat.

Lemma save_upload_storable (filename : string) (w : World) :
  storable filename ->
  save_upload filename w
  = (Ok tt, {| users := users w; products := products w;
               orders := orders w; uploads := uploads w ++ [filename];
               session := session w |}).
Proof.
  intros [Hne Hlen]. unfold save_upload.
  destruct filename as [|b g]; [contradiction|].
  apply Nat.ltb_ge in Hlen. now rewrite Hlen.
Qed.

(** [admin_panel] for an admin who posts a form, step by step. *)
Lemma admin_panel_post (req : Request) (w : World) (u : User.row) :
  current_user w = Some u -> User.is_admin u = true ->
  method req = POST ->
  admin_panel req w
  = ((filename <-
        match files req "product_image"%string with
        | Some (String a s) =>
            let filename := secure_filename (String a s) in
            save_upload filename ;;;
            ret (Some filename)
        | _ => ret None
        end ;;
      price <- float_of_field (form req "product_price"%string) ;;
      db_add_product (form req "product_name"%string) price filename
        (form req "product_desc"%string)
        (form req "product_category"%string) ;;;
      flash "Product Added!" "success") ;;;
     tbl <- gets products ;;
     ret (render_template "admin.html" (products_ctx tbl))) w.
Proof.
  intros Hu Ha Hm. unfold admin_panel.
  unfold bind at 1. unfold gets at 1. now rewrite Hu, Ha, Hm.
Qed.


(** X3. When the form carries an image whose sanitised name the file
    system takes, and a price that parses to a number, the file is
    stored in the upload folder, its name is stored on the product, and
    the product's [image_url] is the static URL of that file; a product
    without an image name has no [image_url], whatever the folder
    holds. *)
Theorem admin_upload_gives_image_url
    (req : Request) (w : World) (u : User.row) (n s f : string) (x : number) :
  current_user w = Some u -> User.is_admin u = true ->
  method req = POST ->
  form req "product_name"%string = Some n ->
  form req "product_price"%string = Some s -> py_float s = Some x ->
  PrimFloat.is_nan x = false ->
  files req "product_image"%string = Some f ->
  f <> EmptyString -> storable (secure_filename f) ->
  (exists (p : Product.row) (w' : World),
      snd (admin_panel req w) = w'
      /\ products w' = products w ++ [p]
      /\ uploads w' = uploads w ++ [secure_filename f]
      /\ Product.image p = Some (secure_filename f)
      /\ image_url p w'
         = Some ("/static/images/" ++ secure_filename f)%string)
  /\ (forall (q : Product.row) (v : World),
         Product.image q = None -> image_url q v = None).
Proof.
  intros Hu Ha Hm Hn Hp Hf Hnan Hfile Hne Hsec. split.
  - rewrite (admin_panel_post req w u Hu Ha Hm).
    unfold float_of_field, db_add_product.
    rewrite Hn, Hp, Hf, Hfile. destruct f as [|a f]; [contradiction|].
    unfold bind. cbv beta zeta.
    rewrite (save_upload_storable _ w Hsec).
    destruct Hsec as [Hsec _].
    destruct (secure_filename (String a f)) as [|b g] eqn:E; [contradiction|].
    run_monad. rewrite Hnan. cbn. eexists. eexists. split; [reflexivity|].
    cbn. split; [reflexivity|]. split; [reflexivity|]. split; [reflexivity|].
    unfold image_url, set_session. cbn [Product.image uploads].
    rewrite existsb_app. cbn [existsb].
    now rewrite String.eqb_refl, orb_false_r, orb_true_r.
  - intros q v Hq. unfold image_url. now rewrite Hq.
Qed.

(** X4. The image is stored before the price is read: a POST by an
    admin with an image whose sanitised name the file system takes and
    a price that does not parse ends in an uncaught [ValueError] with
    the file in the upload folder and no product for it. *)
Theorem admin_upload_survives_bad_price
    (req : Request) (w : World) (u : User.row) (s f : string) :
  current_user w = Some u -> User.is_admin u = true ->
  method req = POST ->
  form req "product_price"%string = Some s -> py_float s = None ->
  files req "product_image"%string = Some f ->
  f <> EmptyString -> storable (secure_filename f) ->
  exists w' : World,
    admin_panel req w = (Raise ValueError, w')
    /\ uploads w' = uploads w ++ [secure_filename f]
    /\ products w' = products w
    /\ session w' = session w.
Proof.
  intros Hu Ha Hm Hp Hf Hfile Hne Hsec.
  rewrite (admin_panel_post req w u Hu Ha Hm).
  unfold float_of_field. rewrite Hp, Hf, Hfile.
  destruct f as [|a f]; [contradiction|].
  unfold bind. cbv beta zeta.
  rewrite (save_upload_storable _ w Hsec).
  run_monad. eexists. repeat split.
Qed.

(** X26. An image whose sanitised name the file system does not take
    stops the request before anything is stored: the write raises
    [IsADirectoryError] when the name is empty and [OSError] when it is
    longer than [name_max], and neither a file nor a product is
    added. *)
Theorem admin_upload_unstorable_name
    (req : Request) (w : World) (u : User.row) (f : string) :
  current_user w = Some u -> User.is_admin u = true ->
  method req = POST ->
  files req "product_image"%string = Some f -> f <> EmptyString ->
  (secure_filename f = EmptyString ->
   admin_panel req w = (Raise IsADirectoryError, w))
  /\ ((name_max < String.length (secure_filename f))%nat ->
      admin_panel req w = (Raise OSError, w)).
Proof.
  intros Hu Ha Hm Hfile Hne.
  rewrite (admin_panel_post req w u Hu Ha Hm). rewrite Hfile.
  destruct f as [|a f]; [contradiction|].
  unfold bind. cbv beta zeta. unfold save_upload. split.
  - intros ->. reflexivity.
  - intros Hlen.
    destruct (secure_filename (String a f)) as [|b g];
      [inversion Hlen|].
    apply Nat.ltb_lt in Hlen. now rewrite Hlen.
Qed.

End AdminGate.

(** ** Accounts *)

Lemma user_by_username_none (tbl : list User.row) (name : string) :
  user_by_username (Some name) tbl = None <->
  ~ In name (map User.username tbl).
Proof.
  cbn. split.
  - intros H Hin. apply in_map_iff in Hin. destruct Hin as (u & <- & Hu).
    apply (find_none _ _ H) in Hu. now rewrite String.eqb_refl in Hu.
  - intros H. destruct (find _ tbl) as [u|] eqn:E; [|reflexivity].
    apply find_some in E. destruct E as [Hin E]. apply String.eqb_eq in E.
    exfalso. apply H. rewrite <- E. now apply in_map.
Qed.

Lemma user_by_username_snoc (tbl : list User.row) (u : User.row) :
  ~ In (User.username u) (map User.username tbl) ->
  user_by_username (Some (User.username u)) (tbl ++ [u]) = Some u.
Proof.
  cbn. induction tbl as [|r tbl IH]; cbn.
  - intros _. now rewrite String.eqb_refl.
  - intros H. destruct (String.eqb_spec (User.username r) (User.username u))
      as [E|_].
    + exfalso. apply H. now left.
    + apply IH. intros Hin. apply H. now right.
Qed.

Lemma user_by_id_snoc (tbl : list User.row) (u : User.row) :
  ~ In (User.id u) (map User.id tbl) ->
  find (fun r => User.id r =? User.id u) (tbl ++ [u]) = Some u.
Proof.
  induction tbl as [|r tbl IH]; cbn.
  - intros _. now rewrite Z.eqb_refl.
  - intros H. destruct (Z.eqb_spec (User.id r) (User.id u)) as [E|_].
    + exfalso. apply H. now left.
    + apply IH. intros Hin. apply H. now right.
Qed.

Section AccountProperties.
Context `{RT : Runtime}.

(** What a registration with a free name and a password does. *)
Lemma register_success (req : Request) (w : World) (name password : string) :
  method req = POST ->
  form req "username"%string = Some name ->
  form req "password"%string = Some password ->
  user_by_username (Some name) (users w) = None ->
  let u := {| User.id := next_id (map User.id (users w));
              User.username := name;
              User.password_hash := generate_password_hash password;
              User.is_admin := match users w with
                               | [] => true
                               | _ :: _ => false
                               end |} in
  register req w
  = (Ok (redirect (url_for home_ep)),
     {| users := users w ++ [u]; products := products w;
        orders := orders w; uploads := uploads w;
        session :=
          {| cart := cart (session w);
             flashes := flashes (session w)
                        ++ [("success", "Account created successfully!")]%string;
             user_id := Some (User.id u) |} |}).
Proof.
  intros Hm Hn Hp Hfree u. unfold register. rewrite Hm, Hn, Hp.
  unfold set_password, db_add_user, login_user. run_monad.
  unfold user_by_username in Hfree. rewrite Hfree. cbn.
  subst u. now destruct (users w).
Qed.

(** X5. A registration under a name that is taken is answered by a
    redirect to [/register] with the message flashed, whatever the
    password field holds: no user is added and the visitor's login and
    cart are as they were. *)
Theorem register_duplicate_rejected
    (req : Request) (w : World) (name : string) (u : User.row) :
  method req = POST ->
  form req "username"%string = Some name ->
  user_by_username (Some name) (users w) = Some u ->
  exists w' : World,
    register req w = (Ok (redirect (url_for register_ep)), w')
    /\ users w' = users w
    /\ products w' = products w /\ orders w' = orders w
    /\ user_id (session w') = user_id (session w)
    /\ cart (session w') = cart (session w)
    /\ flashes (session w')
       = flashes (session w) ++ [("danger", "User already exists!")]%string.
Proof.
  intros Hm Hn Hu. unfold register. rewrite Hm, Hn. run_monad.
  unfold user_by_username in Hu. rewrite Hu. cbn.
  eexists. repeat split.
Qed.

(** One request to [/register] keeps user names and user keys
    distinct. *)
Lemma register_step_unique (w : World) (req : Request) :
  NoDup (map User.username (users w)) /\ NoDup (map User.id (users w)) ->
  NoDup (map User.username (users (register_step w req)))
  /\ NoDup (map User.id (users (register_step w req))).
Proof.
  intros [Hn Hi]. unfold register_step, register.
  destruct (method req); [now split|].
  destruct (form req "username"%string) as [name|];
    destruct (form req "password"%string) as [p|];
    unfold set_password, db_add_user, login_user; run_monad;
    try (destruct (find _ (users w)) eqn:Eu; cbn); try now split.
  assert (Hfree : ~ In name (map User.username (users w)))
    by now apply user_by_username_none.
  rewrite !map_app. cbn. split.
  - apply NoDup_app; [assumption | repeat constructor; easy |].
    intros x Hx [<-|[]]. contradiction.
  - apply NoDup_app; [assumption | repeat constructor; easy |].
    intros x Hx [<-|[]]. now apply next_id_fresh in Hx.
Qed.

(** X6. The user table never holds two rows with the same name or the
    same key: from a table where names and keys are distinct, they are
    distinct in every world that requests to [/register] lead to. *)
Theorem register_keeps_usernames_unique (w0 w : World) :
  NoDup (map User.username (users w0)) ->
  NoDup (map User.id (users w0)) ->
  register_reachable w0 w ->
  NoDup (map User.username (users w)) /\ NoDup (map User.id (users w)).
Proof.
  intros Hn Hi Hr. induction Hr as [|w req _ IH]; [now split|].
  now apply register_step_unique.
Qed.

(** X7. A successful registration logs the new user in.  The visitor
    who registered on an empty user table then gets the admin page from
    a GET of [/admin]; a visitor who registered later gets the denial
    redirect. *)
Theorem register_logs_in
    (req : Request) (w : World) (name password : string) :
  method req = POST ->
  form req "username"%string = Some name ->
  form req "password"%string = Some password ->
  user_by_username (Some name) (users w) = None ->
  exists u : User.row,
    current_user (register_step w req) = Some u
    /\ User.username u = name
    /\ In u (users (register_step w req))
    /\ forall areq : Request,
         method areq = GET ->
         fst (admin_panel areq (register_step w req))
         = match users w with
           | [] => Ok (render_template "admin.html"
                         (products_ctx (products w)))
           | _ :: _ => Ok (redirect (url_for home_ep))
           end.
Proof.
  intros Hm Hn Hp Hfree. unfold register_step.
  rewrite (register_success req w name password Hm Hn Hp Hfree).
  cbv zeta. cbn [snd].
  set (u := {| User.id := next_id (map User.id (users w));
               User.username := name;
               User.password_hash := generate_password_hash password;
               User.is_admin := match users w with
                                | [] => true
                                | _ :: _ => false
                                end |}).
  assert (Hcur : forall p o f c fl,
             current_user {| users := users w ++ [u]; products := p;
                             orders := o; uploads := f;
                             session := {| cart := c; flashes := fl;
                                           user_id := Some (User.id u) |} |}
             = Some u).
  { intros. unfold current_user. cbn [session user_id users].
    apply user_by_id_snoc. apply next_id_fresh. }
  exists u. split; [apply Hcur|]. split; [reflexivity|].
  split; [cbn; apply in_or_app; right; now left|].
  intros areq Ha. unfold admin_panel. unfold bind at 1. unfold gets at 1.
  rewrite Hcur, Ha. subst u. cbn [User.is_admin].
  destruct (users w); reflexivity.
Qed.

(** X8. A registration under a free name that lacks the password, or
    that lacks the name, raises before anything is written: the world
    is as it was, and nobody is logged in by it. *)
Theorem register_missing_field_raises (req : Request) (w : World) :
  method req = POST ->
  user_by_username (form req "username"%string) (users w) = None ->
  form req "password"%string = None \/ form req "username"%string = None ->
  exists e : exn, register req w = (Raise e, w).
Proof.
  intros Hm Hfree H. unfold register. rewrite Hm.
  unfold set_password, db_add_user. run_monad. rewrite Hfree. cbn.
  destruct (form req "password"%string) as [p|].
  - destruct H as [H|H]; [discriminate|]. rewrite H. cbn. now eexists.
  - cbn. now eexists.
Qed.

End AccountProperties.

(** ** Login and logout *)

Section LoginProperties.
Context `{RT : Runtime} `{AU : Auth}.

Lemma user_by_username_found (o : option string) (tbl : list User.row)
    (u : User.row) :
  user_by_username o tbl = Some u -> In u tbl /\ o = Some (User.username u).
Proof.
  destruct o as [name|]; cbn; [|discriminate].
  intros H. apply find_some in H. destruct H as [Hin E].
  apply String.eqb_eq in E. now subst.
Qed.

(** X9. A request to [/login] never writes to a table, to the upload
    folder or to the cart.  It changes who is logged in only when a
    user row has the name typed and the stored hash accepts the
    password typed, and then the session holds that user's key;
    otherwise the login state is as it was. *)
Theorem login_changes_user_only_on_match (req : Request) (w : World) :
  exists (r : res response) (w' : World),
    login req w = (r, w')
    /\ users w' = users w /\ products w' = products w
    /\ orders w' = orders w /\ uploads w' = uploads w
    /\ cart (session w') = cart (session w)
    /\ (user_id (session w') = user_id (session w)
        \/ exists (u : User.row) (p : string),
             In u (users w)
             /\ form req "username"%string = Some (User.username u)
             /\ form req "password"%string = Some p
             /\ check_password_hash (User.password_hash u) p = true
             /\ r = Ok (redirect (url_for home_ep))
             /\ user_id (session w') = Some (User.id u)).
Proof.
  unfold login. destruct (method req).
  { do 2 eexists. split; [reflexivity|]. repeat split. now left. }
  unfold check_password, login_user. run_monad.
  destruct (user_by_username (form req "username"%string) (users w))
    as [u|] eqn:Eu.
  - apply user_by_username_found in Eu. destruct Eu as [Hin Hname].
    destruct (form req "password"%string) as [p|] eqn:Ep; cbn.
    + destruct (check_password_hash (User.password_hash u) p) eqn:Ec; cbn.
      * do 2 eexists. split; [reflexivity|]. cbn. repeat split.
        right. exists u, p. repeat split; assumption.
      * do 2 eexists. split; [reflexivity|]. cbn. repeat split. now left.
    + do 2 eexists. split; [reflexivity|]. repeat split. now left.
  - cbn. do 2 eexists. split; [reflexivity|]. cbn. repeat split. now left.
Qed.

(** X10. Credentials that do not match are answered by the login page
    with the message flashed, and no exception: an unknown name
    (whatever the password field holds, even absent), or a known name
    with a password the stored hash rejects. *)
Theorem login_rejected (req : Request) (w : World) :
  method req = POST ->
  user_by_username (form req "username"%string) (users w) = None
  \/ (exists (u : User.row) (p : string),
         user_by_username (form req "username"%string) (users w) = Some u
         /\ form req "password"%string = Some p
         /\ check_password_hash (User.password_hash u) p = false) ->
  exists w' : World,
    login req w = (Ok (render_template "login.html" no_context), w')
    /\ user_id (session w') = user_id (session w)
    /\ flashes (session w')
       = flashes (session w)
         ++ [("danger", "Invalid username or password")]%string.
Proof.
  intros Hm H. unfold login. rewrite Hm.
  unfold check_password, login_user. run_monad.
  destruct H as [-> | (u & p & -> & -> & Hc)]; cbn.
  - eexists. repeat split.
  - rewrite Hc. cbn. eexists. repeat split.
Qed.

(** X11. Register, log out, log in: when the hash of a password accepts
    that password, a visitor who registered under a free name, logged
    out, and posts the same name and password to [/login] is logged in
    again as the user created at registration. *)
Theorem register_logout_login
    (req lreq : Request) (w : World) (name password : string) :
  (forall p, check_password_hash (generate_password_hash p) p = true) ->
  method req = POST ->
  form req "username"%string = Some name ->
  form req "password"%string = Some password ->
  user_by_username (Some name) (users w) = None ->
  let w1 := register_step w req in
  let w2 := snd (logout lreq w1) in
  exists (u : User.row) (w3 : World),
    current_user w1 = Some u
    /\ current_user w2 = None
    /\ login req w2 = (Ok (redirect (url_for home_ep)), w3)
    /\ current_user w3 = Some u
    /\ User.username u = name.
Proof.
  intros Hhash Hm Hn Hp Hfree w1 w2. subst w2 w1. unfold register_step.
  rewrite (register_success req w name password Hm Hn Hp Hfree).
  cbv zeta. cbn [snd].
  set (u := {| User.id := next_id (map User.id (users w));
               User.username := name;
               User.password_hash := generate_password_hash password;
               User.is_admin := match users w with
                                | [] => true
                                | _ :: _ => false
                                end |}).
  assert (Hid : find (fun r => User.id r =? User.id u) (users w ++ [u])
                = Some u)
    by (apply user_by_id_snoc, next_id_fresh).
  assert (Hname : user_by_username (Some name) (users w ++ [u]) = Some u)
    by (apply (user_by_username_snoc (users w) u);
        now apply user_by_username_none).
  set (s1 := {| cart := cart (session w);
                flashes := flashes (session w)
                  ++ [("success", "Account created successfully!")]%string;
                user_id := Some (User.id u) |}).
  set (w1 := {| users := users w ++ [u]; products := products w;
                orders := orders w; uploads := uploads w; session := s1 |}).
  assert (Hcur1 : current_user w1 = Some u) by exact Hid.
  assert (Hout : snd (logout lreq w1)
                 = set_session
                     {| cart := cart s1;
                        flashes := flashes s1
                          ++ [("info", "You have been logged out.")]%string;
                        user_id := None |} w1).
  { unfold logout, logout_user. unfold bind at 1. unfold gets at 1.
    rewrite Hcur1. reflexivity. }
  rewrite Hout.
  exists u. eexists. split; [exact Hcur1|]. split; [reflexivity|].
  split.
  - unfold login. rewrite Hm, Hn, Hp.
    unfold bind at 1. unfold gets at 1.
    cbn [users set_session w1]. rewrite Hname.
    unfold check_password. subst u. cbn [User.password_hash].
    rewrite Hhash. reflexivity.
  - split; [exact Hid | reflexivity].
Qed.

End LoginProperties.

Section LogoutProperties.
Context `{RT : Runtime}.


End LogoutProperties.

(** ** Pages that only read the catalogue *)

(** X13. [/product/<id>] and the id in the path.  An id that SQLite
    can bind shows a product exactly when it is the key of a row, and
    the product shown is the one the id refers to; if it is no key the
    answer is 404.  An id that SQLite cannot bind ends the request in
    an uncaught [OverflowError].  The ids that get 404 are the ids for
    which the cart loop goes on without a line item.  The page changes
    nothing. *)
Theorem product_detail_found_iff_key (product_id : Z) (w : World) :
  (int64 product_id = true ->
   In product_id (map Product.id (products w)) ->
   exists p : Product.row,
     product_detail product_id w = (Ok (detail_page p), w)
     /\ refers_to (products w) product_id p
     /\ Product.id p = product_id /\ In p (products w))
  /\ (int64 product_id = true ->
      ~ In product_id (map Product.id (products w)) ->
      product_detail product_id w = (Ok (abort 404), w))
  /\ (int64 product_id = false ->
      product_detail product_id w = (Raise OverflowError, w))
  /\ (product_detail product_id w = (Ok (abort 404), w)
      <-> int64 product_id = true
          /\ ~ In product_id (map Product.id (products w)))
  /\ (product_detail product_id w = (Ok (abort 404), w)
      <-> view_cart_loop (products w) [product_id] = Ok ([], num_zero)).
Proof.
  unfold product_detail, view_cart_loop. cbn [view_cart_loop_from].
  unfold view_cart_step, query_get. run_monad.
  destruct (int64 product_id); cbn.
  2: { split; [discriminate|]. split; [discriminate|].
       split; [reflexivity|]. split; split; try discriminate.
       intros [H _]. discriminate. }
  destruct (row_of_key (products w) product_id) as [p|] eqn:E; cbn.
  - pose proof (proj1 (row_of_key_refers _ _ _) E) as Hrefers.
    destruct (row_of_key_id _ _ _ E) as [Hid Hin].
    assert (Hkey : In product_id (map Product.id (products w)))
      by (rewrite <- Hid; now apply in_map).
    split; [intros _ _; now exists p|].
    split; [intros _ H; contradiction|].
    split; [discriminate|].
    split; split; try discriminate. intros [_ H]. contradiction.
  - apply row_of_key_none in E.
    split; [intros _ H; contradiction|].
    split; [reflexivity|].
    split; [discriminate|].
    split; split; try reflexivity. now split.
Qed.

Lemma insert_by_draw_perm (x : Z * Product.row) (l : list (Z * Product.row)) :
  Permutation (insert_by_draw x l) (x :: l).
Proof.
  induction l as [|y r IH]; cbn; [reflexivity|].
  destruct (fst x <=? fst y); [reflexivity|].
  rewrite IH. apply perm_swap.
Qed.

Lemma sort_by_draw_perm (l : list (Z * Product.row)) :
  Permutation (fold_right insert_by_draw [] l) l.
Proof.
  induction l as [|x r IH]; cbn; [reflexivity|].
  rewrite insert_by_draw_perm. now constructor.
Qed.

Lemma map_snd_combine {A B} (l1 : list A) (l2 : list B) :
  List.length l1 = List.length l2 -> map snd (combine l1 l2) = l2.
Proof.
  revert l2. induction l1 as [|a l1 IH]; intros [|b l2]; cbn;
    try discriminate; [reflexivity|].
  intros H. f_equal. apply IH. now injection H.
Qed.

(** Every row is returned once, whatever the draws. *)
Lemma order_by_random_perm (draw : nat -> Z) (tbl : list Product.row) :
  Permutation (order_by_random draw tbl) tbl.
Proof.
  unfold order_by_random.
  rewrite (Permutation_map snd (sort_by_draw_perm _)).
  rewrite map_snd_combine; [reflexivity|].
  now rewrite length_map, length_seq.
Qed.

(** X14. Whatever the database draws, the featured products of the
    home page are rows of the catalogue, each taken at most once: three
    of them when the catalogue has three or more, the whole catalogue
    (in some order) when it has fewer.  The page changes nothing. *)
Theorem home_features_distinct_products (draw : nat -> Z) (w : World) :
  exists featured rest : list Product.row,
    home draw w = (Ok (index_page featured), w)
    /\ Permutation (featured ++ rest) (products w)
    /\ List.length featured = Nat.min 3 (List.length (products w))
    /\ (forall p, In p featured -> In p (products w))
    /\ ((List.length (products w) <= 3)%nat ->
        Permutation featured (products w))
    /\ (NoDup (map Product.id (products w)) ->
        NoDup (map Product.id featured)).
Proof.
  pose proof (order_by_random_perm draw (products w)) as Hperm.
  exists (firstn 3 (order_by_random draw (products w))).
  exists (skipn 3 (order_by_random draw (products w))).
  split; [reflexivity|].
  split; [now rewrite firstn_skipn|].
  split; [now rewrite length_firstn, (Permutation_length Hperm)|].
  split; [|split].
  - intros p Hp. apply (Permutation_in _ Hperm).
    rewrite <- (firstn_skipn 3). apply in_or_app. now left.
  - intros Hlen. rewrite firstn_all2; [assumption|].
    now rewrite (Permutation_length Hperm).
  - intros Hnd.
    assert (Hnd' : NoDup (map Product.id (order_by_random draw (products w)))).
    { eapply Permutation_NoDup; [|exact Hnd].
      apply Permutation_map. now symmetry. }
    rewrite <- (firstn_skipn 3 (order_by_random draw (products w))) in Hnd'.
    rewrite map_app in Hnd'. now apply NoDup_app_remove_r in Hnd'.
Qed.

(** ** More on the cart *)

Lemma remove_first_app_in (x : Z) (l l2 : list Z) :
  In x l -> remove_first x (l ++ l2) = remove_first x l ++ l2.
Proof.
  induction l as [|y r IH]; cbn; [easy|].
  destruct (Z.eqb_spec y x) as [_|Hne]; [reflexivity|].
  intros [E|H]; [contradiction|]. now rewrite IH.
Qed.

Lemma remove_first_perm (x : Z) (l : list Z) :
  In x l -> Permutation (x :: remove_first x l) l.
Proof.
  induction l as [|y r IH]; cbn; [easy|].
  destruct (Z.eqb_spec y x) as [->|Hne]; [reflexivity|].
  intros [E|H]; [contradiction|].
  rewrite perm_swap. constructor. now apply IH.
Qed.

Lemma filter_length_all {A} (f : A -> bool) (l : list A) :
  List.length (filter f l) = List.length l
  <-> forall x, In x l -> f x = true.
Proof.
  induction l as [|a l IH]; cbn; [easy|].
  pose proof (filter_length_le f l) as Hle.
  destruct (f a) eqn:E; cbn.
  - split.
    + intros H x [<-|Hx]; [assumption|]. apply IH; [lia | assumption].
    + intros H. f_equal. apply IH. intros x Hx. apply H. now right.
  - split; [lia|]. intros H. specialize (H a (or_introl eq_refl)). congruence.
Qed.

Lemma resolved_none (tbl : list Product.row) (cart_ids : list Z) :
  (forall i, In i cart_ids -> ~ In i (map Product.id tbl)) ->
  resolved tbl cart_ids = [].
Proof.
  induction cart_ids as [|i r IH]; [reflexivity|].
  intros H. cbn.
  assert (E : row_of_key tbl i = None)
    by (apply row_of_key_none, H; now left).
  rewrite E. apply IH. intros j Hj. apply H. now right.
Qed.

(** [/cart] renders the line items of the cart or raises
    [OverflowError], nothing else, and writes nothing. *)
Lemma view_cart_cases (req : Request) (w : World) :
  (Forall (fun i => int64 i = true) (session_get_cart w)
   /\ view_cart req w
      = (Ok (render_template "cart.html"
               (cart_ctx (resolved (products w) (session_get_cart w))
                  (fold_left num_add
                     (map Product.price
                        (resolved (products w) (session_get_cart w)))
                     num_zero))), w))
  \/ (Exists (fun i => int64 i = false) (session_get_cart w)
      /\ view_cart req w = (Raise OverflowError, w)).
Proof.
  unfold view_cart. run_monad. fold (session_get_cart w).
  unfold view_cart_loop.
  destruct (bindable_or_not (session_get_cart w)) as [H|H].
  - left. split; [assumption|].
    now rewrite (view_cart_loop_from_bindable _ _ _ _ H).
  - right. split; [assumption|].
    now rewrite (view_cart_loop_from_unbindable _ _ _ H).
Qed.

Lemma cart_handlers_keep_products
    (product_id : Z) (req : Request) (w : World) :
  products (snd (add_to_cart product_id req w)) = products w
  /\ products (snd (remove_from_cart product_id req w)) = products w.
Proof.
  split.
  - unfold add_to_cart. run_monad. now destruct (cart (session w)).
  - unfold remove_from_cart. run_monad.
    destruct (cart (session w)) as [l|]; cbn; [|reflexivity].
    destruct (py_in product_id l) eqn:E; [|reflexivity].
    apply py_in_In in E. now rewrite (list_remove_present _ _ E).
Qed.

(** X15. Neither cart handler ever raises, and neither writes outside
    the session's cart and messages: the tables, the upload folder and
    the login are as they were, for every id, request and world. *)
Theorem cart_handlers_touch_only_the_cart
    (product_id : Z) (req : Request) (w : World) :
  (exists (r : response) (w' : World),
      add_to_cart product_id req w = (Ok r, w')
      /\ users w' = users w /\ products w' = products w
      /\ orders w' = orders w /\ uploads w' = uploads w
      /\ user_id (session w') = user_id (session w))
  /\ (exists (r : response) (w' : World),
         remove_from_cart product_id req w = (Ok r, w')
         /\ users w' = users w /\ products w' = products w
         /\ orders w' = orders w /\ uploads w' = uploads w
         /\ user_id (session w') = user_id (session w)).
Proof.
  split.
  - unfold add_to_cart. run_monad.
    destruct (cart (session w)); cbn; do 2 eexists; repeat split.
  - unfold remove_from_cart. run_monad.
    destruct (cart (session w)) as [l|]; cbn;
      [|do 2 eexists; repeat split].
    destruct (py_in product_id l) eqn:E; [|do 2 eexists; repeat split].
    apply py_in_In in E. rewrite (list_remove_present _ _ E). cbn.
    do 2 eexists. repeat split.
Qed.

(** X16. Add an id, then remove it: the badge count is back where it
    was.  The cart sequence is back too when the id was not in it
    before; when it was, its first occurrence is the one removed and
    the added one stays at the end, so the cart holds the same entries
    in another order. *)
Theorem add_then_remove (x : Z) (req1 req2 : Request) (w : World) :
  let l := session_get_cart w in
  let w' := snd (remove_from_cart x req2 (snd (add_to_cart x req1 w))) in
  inject_cart_count w' = inject_cart_count w
  /\ Permutation (session_get_cart w') l
  /\ (~ In x l -> session_get_cart w' = l)
  /\ (In x l -> session_get_cart w' = remove_first x l ++ [x]).
Proof.
  intros l w'.
  assert (E : session_get_cart w' = remove_first x (l ++ [x])).
  { subst w'. rewrite (proj2 (remove_from_cart_cart x req2 _)).
    destruct (add_to_cart_cart x req1 w) as (r & _ & H).
    unfold session_get_cart at 1. now rewrite H. }
  assert (Hperm : Permutation (remove_first x (l ++ [x])) l).
  { apply (Permutation_cons_inv (a := x)).
    rewrite remove_first_perm by (apply in_or_app; right; now left).
    now rewrite Permutation_app_comm. }
  split; [|split; [|split]].
  - unfold inject_cart_count. rewrite E.
    now rewrite (Permutation_length Hperm).
  - now rewrite E.
  - intros H. rewrite E.
    rewrite <- (app_nil_r l) at 2.
    change (l ++ [x]) with (l ++ x :: []).
    now apply remove_first_split.
  - intros H. rewrite E. now apply remove_first_app_in.
Qed.

(** X17. The badge counts cart entries, the cart page lists the ones
    that resolve: when every id in the cart can be bound (so that the
    page renders), the page never has more line items than the badge
    shows, and has as many exactly when every id in the cart is the key
    of a product. *)
Theorem badge_counts_dangling_ids (req : Request) (w : World) :
  Forall (fun i => int64 i = true) (session_get_cart w) ->
  exists (cart_items : list Product.row) (total : number),
    view_cart req w
    = (Ok (render_template "cart.html" (cart_ctx cart_items total)), w)
    /\ Z.of_nat (List.length cart_items) <= inject_cart_count w
    /\ (Z.of_nat (List.length cart_items) = inject_cart_count w
        <-> forall i, In i (session_get_cart w) ->
                      In i (map Product.id (products w))).
Proof.
  intros Hb. do 2 eexists. split.
  { destruct (view_cart_cases req w) as [[_ H] | [H _]]; [exact H|].
    exfalso. apply Exists_exists in H. destruct H as (i & Hi & Hf).
    rewrite Forall_forall in Hb. specialize (Hb i Hi). congruence. }
  unfold inject_cart_count.
  rewrite <- (length_map Product.id), resolved_ids.
  split.
  - apply inj_le, filter_length_le.
  - rewrite Nat2Z.inj_iff, filter_length_all. split.
    + intros H i Hi. specialize (H i Hi).
      destruct (row_of_key (products w) i) as [p|] eqn:E; [|discriminate].
      destruct (row_of_key_id _ _ _ E) as [<- Hin]. now apply in_map.
    + intros H i Hi. specialize (H i Hi).
      destruct (row_of_key (products w) i) eqn:E; [reflexivity|].
      apply row_of_key_none in E. contradiction.
Qed.

(** X18. Adding an id to a cart whose page renders.  The badge goes up
    by one in every case.  If the id refers to a product, the page
    gets that product as one more line item at its end and its price
    added to the total; if the id can be bound and is no key, the page
    is as it was; if the id cannot be bound, the page no longer
    renders: [/cart] ends in an uncaught [OverflowError]. *)
Theorem add_to_cart_then_view
    (x : Z) (req vreq : Request) (w : World)
    (items : list Product.row) (total : number) :
  view_cart vreq w
  = (Ok (render_template "cart.html" (cart_ctx items total)), w) ->
  let w' := snd (add_to_cart x req w) in
  inject_cart_count w' = inject_cart_count w + 1
  /\ (int64 x = true ->
      forall p : Product.row,
        refers_to (products w) x p ->
        view_cart vreq w'
        = (Ok (render_template "cart.html"
                 (cart_ctx (items ++ [p])
                           (num_add total (Product.price p)))), w'))
  /\ (int64 x = true ->
      ~ In x (map Product.id (products w)) ->
      view_cart vreq w'
      = (Ok (render_template "cart.html" (cart_ctx items total)), w'))
  /\ (int64 x = false ->
      view_cart vreq w' = (Raise OverflowError, w')).
Proof.
  intros Hview w'.
  destruct (add_to_cart_cart x req w) as (r & _ & Hc).
  assert (Hcart : session_get_cart w' = session_get_cart w ++ [x])
    by (unfold session_get_cart at 1; subst w'; now rewrite Hc).
  assert (Hprod : products w' = products w).
  { destruct (cart_handlers_keep_products x req w) as [H _]. exact H. }
  destruct (view_cart_cases vreq w) as [[Hb Hw] | [_ Hw]];
    rewrite Hw in Hview; [|discriminate].
  injection Hview as <- <-.
  split; [|split; [|split]].
  - unfold inject_cart_count. rewrite Hcart, length_app. cbn. lia.
  - intros Hx p Hp. apply row_of_key_refers in Hp.
    destruct (view_cart_cases vreq w') as [[_ Hw'] | [He _]].
    + rewrite Hw', Hcart, Hprod, resolved_app. cbn [resolved flat_map].
      rewrite Hp, app_nil_r, map_app, fold_left_app. reflexivity.
    + exfalso. rewrite Hcart in He. apply Exists_app in He.
      destruct He as [He|He].
      * apply Exists_exists in He. destruct He as (i & Hi & Hf).
        rewrite Forall_forall in Hb. specialize (Hb i Hi). congruence.
      * inversion He as [? ? Hf|? ? Hf]; subst; [congruence | inversion Hf].
  - intros Hx Hp. apply row_of_key_none in Hp.
    destruct (view_cart_cases vreq w') as [[_ Hw'] | [He _]].
    + rewrite Hw', Hcart, Hprod, resolved_app. cbn [resolved flat_map].
      now rewrite Hp, !app_nil_r.
    + exfalso. rewrite Hcart in He. apply Exists_app in He.
      destruct He as [He|He].
      * apply Exists_exists in He. destruct He as (i & Hi & Hf).
        rewrite Forall_forall in Hb. specialize (Hb i Hi). congruence.
      * inversion He as [? ? Hf|? ? Hf]; subst; [congruence | inversion Hf].
  - intros Hx.
    destruct (view_cart_cases vreq w') as [[Hb' _] | [_ Hw']];
      [|exact Hw'].
    exfalso. rewrite Hcart in Hb'. apply Forall_app in Hb'.
    destruct Hb' as [_ Hb']. inversion Hb'; subst. congruence.
Qed.

(** ** More on checkout, the listing and the seeding *)

Section CheckoutMore.
Context `{RT : Runtime}.

(** X19. A cart whose ids can all be bound and are all dangling is
    not an empty cart: the checkout page shows the sum of no prices,
    and, when that sum is a number, a POST with a name and an address
    creates an order for it and drops the cart. *)
Theorem checkout_of_dangling_cart (req : Request) (w : World) :
  session_get_cart w <> [] ->
  Forall (fun i => int64 i = true) (session_get_cart w) ->
  (forall i, In i (session_get_cart w) ->
             ~ In i (map Product.id (products w))) ->
  (method req = GET ->
   checkout req w
   = (Ok (render_template "checkout.html" (total_ctx (py_sum []))), w))
  /\ (forall n a : string,
         method req = POST ->
         form req "name"%string = Some n ->
         form req "address"%string = Some a ->
         PrimFloat.is_nan (py_sum []) = false ->
         exists (o : Order.row) (w' : World),
           checkout req w
           = (Ok (render_template "success.html" (name_ctx (Some n))), w')
           /\ orders w' = orders w ++ [o]
           /\ Order.total_price o = py_sum []
           /\ cart (session w') = None).
Proof.
  intros Hne Hb Hd.
  assert (Hp : checkout_prices (products w) (session_get_cart w) = Ok []).
  { rewrite (checkout_prices_bindable _ _ Hb).
    now rewrite (resolved_none _ _ Hd). }
  split.
  - intros Hm. now rewrite (checkout_nonempty req w Hne), Hp, Hm.
  - intros n a Hm Hn Ha Hnan.
    rewrite (checkout_post_success req w n a [] Hne Hm Hn Ha Hp Hnan).
    do 2 eexists. split; [reflexivity|]. repeat split.
Qed.

(** X20. No request to [/checkout] writes to the products, the users,
    the upload folder or the login, and none changes or removes an
    order: the order table is as it was, or has one more row at its
    end, under a key no order had, with status [Pending], and that
    happens on a POST only. *)
Theorem checkout_only_appends_orders (req : Request) (w : World) :
  exists (r : res response) (w' : World),
    checkout req w = (r, w')
    /\ products w' = products w /\ users w' = users w
    /\ uploads w' = uploads w
    /\ user_id (session w') = user_id (session w)
    /\ (orders w' = orders w
        \/ exists o : Order.row,
             orders w' = orders w ++ [o]
             /\ ~ In (Order.id o) (map Order.id (orders w))
             /\ Order.status o = "Pending"%string
             /\ method req = POST).
Proof.
  destruct (session_get_cart w) as [|i l] eqn:Ec.
  - unfold checkout. run_monad. rewrite Ec.
    do 2 eexists. split; [reflexivity|]. repeat split. now left.
  - assert (Hne : session_get_cart w <> []) by (rewrite Ec; discriminate).
    rewrite (checkout_nonempty req w Hne).
    destruct (checkout_prices (products w) (session_get_cart w))
      as [prices|e];
      [|do 2 eexists; split; [reflexivity|]; repeat split; now left].
    destruct (method req) eqn:Hm.
    + do 2 eexists. split; [reflexivity|]. repeat split. now left.
    + unfold db_add_order.
      destruct (form req "name"%string) as [n|];
        [destruct (form req "address"%string) as [a|];
         [destruct (PrimFloat.is_nan (py_sum prices))|]|];
        run_monad; do 2 eexists; (split; [reflexivity|]); cbn;
        repeat split; try (now left).
      right. eexists. split; [reflexivity|]. cbn.
      split; [apply next_id_fresh | now split].
Qed.

(** X21. Submitting the checkout form twice creates one order: after a
    POST that succeeded on a cart that was not empty, the same POST
    finds the cart empty, is answered by the redirect to the shop, and
    adds no order. *)
Theorem checkout_twice_orders_once
    (req : Request) (w w1 : World) (r : response) :
  session_get_cart w <> [] -> method req = POST ->
  checkout req w = (Ok r, w1) ->
  exists w2 : World,
    checkout req w1 = (Ok (redirect (url_for shop_page_ep)), w2)
    /\ orders w2 = orders w1
    /\ List.length (orders w2) = S (List.length (orders w)).
Proof.
  intros Hne Hm Hrun.
  rewrite (checkout_nonempty req w Hne), Hm in Hrun.
  destruct (checkout_prices (products w) (session_get_cart w))
    as [prices|e]; [|discriminate].
  unfold db_add_order in Hrun.
  destruct (form req "name"%string) as [n|];
    [destruct (form req "address"%string) as [a|]|]; try discriminate.
  destruct (PrimFloat.is_nan (py_sum prices)); [discriminate|].
  injection Hrun as _ <-.
  unfold checkout. run_monad.
  eexists. split; [reflexivity|]. cbn. split; [reflexivity|].
  rewrite length_app. cbn. lia.
Qed.

(** X22. The listing and its parameters: a parameter that is absent or
    empty filters nothing, so that without parameters the whole table
    is listed, with a text only the result is [search], with a category
    only it is [filterByCategory]; in every case the rows listed are
    rows of the table, and the page, for a text whose pattern the
    database takes, shows them and changes nothing. *)
Theorem shop_query_parameters
    (oq oc : option string) (tbl : list Product.row) :
  let given (o : option string) :=
    match o with Some (String _ _) => true | _ => false end in
  (given oq = false -> given oc = false -> shop_query oq oc tbl = tbl)
  /\ (forall q, oq = Some q -> given oq = true -> given oc = false ->
                shop_query oq oc tbl = search q tbl)
  /\ (forall c, oc = Some c -> given oq = false -> given oc = true ->
                shop_query oq oc tbl = filterByCategory c tbl)
  /\ (forall p, In p (shop_query oq oc tbl) -> In p tbl)
  /\ (forall (req : Request) (w : World),
         args req "q"%string = oq -> args req "category"%string = oc ->
         products w = tbl ->
         (forall q, oq = Some q -> pattern_refused q = false) ->
         shop_page req w
         = (Ok (render_template "products.html"
                  (products_ctx (shop_query oq oc tbl))), w)).
Proof.
  intros given. unfold shop_query.
  split; [|split; [|split; [|split]]].
  - destruct oq as [[|a q]|]; destruct oc as [[|b c]|];
      cbn; intros; try discriminate; reflexivity.
  - intros q -> Hq. destruct q as [|a q]; [discriminate|].
    destruct oc as [[|b c]|]; cbn; intros; try discriminate; reflexivity.
  - intros c -> Hq Hc. destruct c as [|b c]; [discriminate|].
    destruct oq as [[|a q]|]; cbn in *; try discriminate; reflexivity.
  - intros p.
    destruct oq as [[|a q]|]; destruct oc as [[|b c]|];
      rewrite ?filter_In; tauto.
  - intros req w <- <- <- Hr. unfold shop_page, run_shop_query, shop_query.
    unfold bind, gets, ret.
    destruct (args req "q"%string) as [[|a q]|]; try reflexivity.
    rewrite (Hr _ eq_refl). now destruct (products w).
Qed.

(** X27. A search text whose pattern the database refuses: on a table
    with a row the query raises [OperationalError], with or without a
    category, and nothing changes; on an empty table no row is compared
    and the page is the empty listing. *)
Theorem shop_page_refuses_long_pattern
    (req : Request) (w : World) (q : string) :
  args req "q"%string = Some q -> pattern_refused q = true ->
  (products w <> [] -> shop_page req w = (Raise OperationalError, w))
  /\ (products w = [] ->
      shop_page req w
      = (Ok (render_template "products.html" (products_ctx [])), w)).
Proof.
  intros Hq Hr. unfold shop_page, run_shop_query, shop_query.
  unfold bind, gets, ret, raise. rewrite Hq.
  destruct q as [|a q]; [discriminate Hr|]. rewrite Hr. split.
  - intros Hne. destruct (products w); [contradiction | reflexivity].
  - intros ->. now destruct (args req "category"%string) as [[|b c]|].
Qed.

End CheckoutMore.

(** X23. Seeding is idempotent and never overwrites: [setup_database]
    leaves a catalogue that has a row exactly as it is, leaves the
    users, the orders, the upload folder and the session alone, yields
    a catalogue that is not empty, and run a second time changes
    nothing. *)
Theorem setup_database_idempotent (w : World) :
  (products w <> [] -> setup_database w = w)
  /\ products (setup_database w) <> []
  /\ setup_database (setup_database w) = setup_database w
  /\ users (setup_database w) = users w
  /\ orders (setup_database w) = orders w
  /\ uploads (setup_database w) = uploads w
  /\ session (setup_database w) = session w.
Proof.
  assert (Hseed : fold_left seed_product seed_data [] <> [])
    by (vm_compute; discriminate).
  destruct (products w) as [|p tbl] eqn:E.
  - assert (H : setup_database w
                = {| users := users w;
                     products := fold_left seed_product seed_data [];
                     orders := orders w; uploads := uploads w;
                     session := session w |})
      by (unfold setup_database; now rewrite E).
    rewrite H. cbn [products users orders uploads session].
    split; [easy|]. split; [exact Hseed|]. split; [|repeat split].
    unfold setup_database. cbn [products users orders uploads session].
    now destruct (fold_left seed_product seed_data []).
  - assert (H : setup_database w = w)
      by (unfold setup_database; now rewrite E).
    rewrite !H, E. split; [easy|]. split; [discriminate|]. repeat split.
Qed.

(** ** The application as a whole *)

Section Frames.
Context `{RT : Runtime} `{AU : Auth}.

(** The tables a view does not write to. *)
Lemma register_frame (req : Request) (w : World) :
  products (snd (register req w)) = products w
  /\ orders (snd (register req w)) = orders w.
Proof.
  unfold register. destruct (method req); [now split|].
  destruct (form req "username"%string) as [n|];
    destruct (form req "password"%string) as [p|];
    unfold set_password, db_add_user, login_user; run_monad;
    try (destruct (find _ (users w)); cbn); now split.
Qed.

Lemma login_frame (req : Request) (w : World) :
  users (snd (login req w)) = users w
  /\ products (snd (login req w)) = products w
  /\ orders (snd (login req w)) = orders w.
Proof.
  unfold login. destruct (method req); [now repeat split|].
  unfold check_password, login_user.
  destruct (form req "username"%string) as [n|];
    destruct (form req "password"%string) as [p|]; run_monad;
    try (destruct (find _ (users w)) as [u|]; cbn);
    try (destruct (check_password_hash _ _); cbn);
    now repeat split.
Qed.

Lemma logout_frame (req : Request) (w : World) :
  users (snd (logout req w)) = users w
  /\ products (snd (logout req w)) = products w
  /\ orders (snd (logout req w)) = orders w.
Proof.
  unfold logout, logout_user, flash, bind, gets, modify, ret.
  destruct (current_user w); cbn; now repeat split.
Qed.

Lemma cart_frame (i : Z) (req : Request) (w : World) :
  (users (snd (add_to_cart i req w)) = users w
   /\ products (snd (add_to_cart i req w)) = products w
   /\ orders (snd (add_to_cart i req w)) = orders w)
  /\ (users (snd (remove_from_cart i req w)) = users w
      /\ products (snd (remove_from_cart i req w)) = products w
      /\ orders (snd (remove_from_cart i req w)) = orders w).
Proof.
  split.
  - unfold add_to_cart. run_monad.
    destruct (cart (session w)); now repeat split.
  - unfold remove_from_cart. run_monad.
    destruct (cart (session w)) as [l|]; cbn; [|now repeat split].
    destruct (py_in i l) eqn:E; [|now repeat split].
    apply py_in_In in E. rewrite (list_remove_present _ _ E).
    now repeat split.
Qed.

Lemma checkout_frame (req : Request) (w : World) :
  users (snd (checkout req w)) = users w
  /\ products (snd (checkout req w)) = products w
  /\ (orders (snd (checkout req w)) = orders w
      \/ exists o : Order.row,
           method req = POST
           /\ orders (snd (checkout req w)) = orders w ++ [o]
           /\ ~ In (Order.id o) (map Order.id (orders w))).
Proof.
  destruct (session_get_cart w) as [|i l] eqn:Ec.
  - unfold checkout. run_monad. rewrite Ec. cbn. repeat split. now left.
  - assert (Hne : session_get_cart w <> []) by (rewrite Ec; discriminate).
    rewrite (checkout_nonempty req w Hne).
    destruct (checkout_prices (products w) (session_get_cart w))
      as [prices|e]; [|repeat split; now left].
    destruct (method req) eqn:Hm; [repeat split; now left|].
    unfold db_add_order.
    destruct (form req "name"%string) as [n|];
      [destruct (form req "address"%string) as [a|];
       [destruct (PrimFloat.is_nan (py_sum prices))|]|];
      run_monad; repeat split; try (now left).
    right. eexists. split; [reflexivity|]. split; [reflexivity|].
    apply next_id_fresh.
Qed.

Lemma save_upload_cases (filename : string) (w : World) :
  save_upload filename w
  = (Ok tt, {| users := users w; products := products w;
               orders := orders w; uploads := uploads w ++ [filename];
               session := session w |})
  \/ exists e : exn, save_upload filename w = (Raise e, w).
Proof.
  unfold save_upload. destruct filename as [|b g].
  - right. now exists IsADirectoryError.
  - destruct (Nat.ltb name_max (String.length (String b g))).
    + right. now exists OSError.
    + now left.
Qed.

Lemma admin_panel_frame (req : Request) (w : World) :
  users (snd (admin_panel req w)) = users w
  /\ orders (snd (admin_panel req w)) = orders w
  /\ (products (snd (admin_panel req w)) = products w
      \/ exists (p : Product.row) (u : User.row),
           method req = POST
           /\ current_user w = Some u /\ User.is_admin u = true
           /\ products (snd (admin_panel req w)) = products w ++ [p]
           /\ ~ In (Product.id p) (map Product.id (products w))).
Proof.
  unfold admin_panel, float_of_field, db_add_product, flash,
    bind, gets, modify, ret, raise.
  destruct (current_user w) as [u|] eqn:Hu;
    [|cbn; repeat split; now left].
  destruct (User.is_admin u) eqn:Ha; cbn [negb];
    [|cbn; repeat split; now left].
  destruct (method req) eqn:Hm; [cbn; repeat split; now left|].
  cbv beta zeta.
  destruct (form req "product_price"%string) as [s|];
    [destruct (py_float s) as [x|];
     [destruct (PrimFloat.is_nan x) eqn:Hnan|]|];
    destruct (form req "product_name"%string) as [n|];
    (destruct (files req "product_image"%string) as [[|a f]|];
     [|destruct (save_upload_cases (secure_filename (String a f)) w)
         as [E | [e E]]; rewrite E|]);
    cbn; rewrite ?Hnan; cbn; repeat split; try (now left);
    right; eexists; exists u;
    (split; [reflexivity|]); (split; [reflexivity|]);
    (split; [exact Ha|]); (split; [reflexivity|]);
    apply next_id_fresh.
Qed.

(** One request and the three tables. *)
Lemma dispatch_frame
    (r : route) (req : Request) (draw : nat -> Z) (w : World) :
  let w' := dispatch r req draw w in
  (users w' = users w
   \/ (r = register_route /\ users w' = users (register_step w req)))
  /\ (products w' = products w
      \/ exists (p : Product.row) (u : User.row),
           r = admin_panel_route /\ method req = POST
           /\ current_user w = Some u /\ User.is_admin u = true
           /\ products w' = products w ++ [p]
           /\ ~ In (Product.id p) (map Product.id (products w)))
  /\ (orders w' = orders w
      \/ exists o : Order.row,
           r = checkout_route /\ method req = POST
           /\ orders w' = orders w ++ [o]
           /\ ~ In (Order.id o) (map Order.id (orders w))).
Proof.
  intros w'. subst w'. unfold dispatch.
  destruct (route_matches r); cbn [negb]; [|repeat split; now left].
  destruct r; cbn [accepts_post].
  - (* register *)
    destruct (register_frame req w) as [Hp Ho].
    destruct (method req); (split; [right; now split|]); split; now left.
  - (* login *)
    destruct (login_frame req w) as (Hu & Hp & Ho).
    destruct (method req); repeat split; now left.
  - (* logout *)
    destruct (logout_frame req w) as (Hu & Hp & Ho).
    destruct (method req); repeat split; now left.
  - (* home *)
    destruct (method req); repeat split; now left.
  - (* shop_page *)
    assert (E : snd (shop_page req w) = w)
      by (unfold shop_page, run_shop_query; run_monad;
          destruct (args req "q"%string) as [[|a q]|];
          destruct (products w); try reflexivity;
          now destruct (pattern_refused (String a q))).
    rewrite E. destruct (method req); repeat split; now left.
  - (* product_detail *)
    assert (E : snd (product_detail product_id w) = w)
      by (unfold product_detail; run_monad;
          now destruct (query_get (products w) product_id) as [[p|]|e]).
    rewrite E. destruct (method req); repeat split; now left.
  - (* add_to_cart *)
    destruct (cart_frame product_id req w) as [(Hu & Hp & Ho) _].
    destruct (method req); repeat split; now left.
  - (* view_cart *)
    assert (E : snd (view_cart req w) = w)
      by (destruct (view_cart_cases req w) as [[_ H] | [_ H]];
          now rewrite H).
    rewrite E. destruct (method req); repeat split; now left.
  - (* remove_from_cart *)
    destruct (cart_frame product_id req w) as [_ (Hu & Hp & Ho)].
    destruct (method req); repeat split; now left.
  - (* checkout *)
    destruct (checkout_frame req w) as (Hu & Hp & Ho).
    destruct (method req) eqn:Hm;
      (split; [now left|]); (split; [now left|]).
    + destruct Ho as [Ho | (o & Hpost & _)]; [now left | discriminate].
    + destruct Ho as [Ho | (o & _ & Ho & Hf)]; [now left|].
      right. now exists o.
  - (* admin_panel *)
    destruct (admin_panel_frame req w) as (Hu & Ho & Hp).
    destruct (method req) eqn:Hm;
      (split; [now left|]); (split; [|now left]).
    + destruct Hp as [Hp | (p & u & Hpost & _)]; [now left | discriminate].
    + destruct Hp as [Hp | (p & u & _ & Hcu & Ha & Hp & Hf)]; [now left|].
      right. now exists p, u.
Qed.

(** X24. No request deletes or rewrites a row.  A request leaves each
    table as it was or with one more row at its end: a user only
    through [/register], an order only through a POST to [/checkout],
    and a product only through a POST to [/admin] by a logged-in admin;
    a path that does not match its rule, or a POST to a rule declared
    for GET, writes nothing. *)
Theorem tables_are_append_only
    (r : route) (req : Request) (draw : nat -> Z) (w : World) :
  let w' := dispatch r req draw w in
  (users w' = users w
   \/ exists u : User.row, r = register_route /\ users w' = users w ++ [u])
  /\ (products w' = products w
      \/ exists (p : Product.row) (u : User.row),
           r = admin_panel_route /\ method req = POST
           /\ current_user w = Some u /\ User.is_admin u = true
           /\ products w' = products w ++ [p])
  /\ (orders w' = orders w
      \/ exists o : Order.row,
           r = checkout_route /\ method req = POST
           /\ orders w' = orders w ++ [o])
  /\ (route_matches r = false
      \/ (method req = POST /\ accepts_post r = false) -> w' = w).
Proof.
  intros w'.
  destruct (dispatch_frame r req draw w) as (Hu & Hp & Ho). fold w' in Hu, Hp, Ho.
  split; [|split; [|split]].
  - destruct Hu as [Hu | [-> Hu]]; [now left|]. rewrite Hu.
    unfold register_step.
    destruct (register_users req w) as [E | (u & E & _)]; rewrite E;
      [now left | right; now exists u].
  - destruct Hp as [Hp | (p & u & Hr & Hm & Hc & Ha & Hp & _)]; [now left|].
    right. now exists p, u.
  - destruct Ho as [Ho | (o & Hr & Hm & Ho & _)]; [now left|].
    right. now exists o.
  - subst w'. unfold dispatch. intros [-> | [-> ->]]; [reflexivity|].
    now destruct (route_matches r).
Qed.

(** X25. The constraints of the schema are never put to the test, and
    the admin stays the first user.  From a database without users
    whose product and order keys are distinct, in every world that
    requests of any kind lead to: keys are distinct in each table, user
    names are distinct, the first user is an admin and no later one is,
    and the products there were at the start are still the first rows
    of the catalogue. *)
Theorem reachable_worlds_are_consistent (w0 w : World) :
  users w0 = [] ->
  NoDup (map Product.id (products w0)) ->
  NoDup (map Order.id (orders w0)) ->
  reachable w0 w ->
  constraints_hold w
  /\ first_is_only_admin (users w)
  /\ exists later : list Product.row, products w = products w0 ++ later.
Proof.
  intros Hu0 Hp0 Ho0 Hr.
  induction Hr as [|w r req draw _ (Hc & Hadmin & later & Hlater)].
  - split; [|split].
    + unfold constraints_hold. rewrite Hu0. repeat split; try constructor;
        assumption.
    + now rewrite Hu0.
    + exists []. now rewrite app_nil_r.
  - destruct Hc as (Hui & Hun & Hpi & Hoi).
    destruct (dispatch_frame r req draw w) as (Hu & Hp & Ho).
    cbv zeta in Hu, Hp, Ho.
    assert (Husers : NoDup (map User.id (users (dispatch r req draw w)))
                     /\ NoDup (map User.username
                                 (users (dispatch r req draw w)))
                     /\ first_is_only_admin (users (dispatch r req draw w))).
    { destruct Hu as [-> | [_ ->]]; [now repeat split|].
      destruct (register_step_unique w req (conj Hun Hui)) as [Hn' Hi'].
      repeat split; [assumption | assumption |].
      now apply register_step_invariant. }
    destruct Husers as (Hui' & Hun' & Hadmin').
    split; [|split; [exact Hadmin'|]].
    + unfold constraints_hold. repeat split; [assumption | assumption | |].
      * destruct Hp as [-> | (p & u & _ & _ & _ & _ & -> & Hf)];
          [assumption|].
        rewrite map_app. apply NoDup_app; [assumption | repeat constructor; easy|].
        intros x Hx [<-|[]]. contradiction.
      * destruct Ho as [-> | (o & _ & _ & -> & Hf)]; [assumption|].
        rewrite map_app. apply NoDup_app; [assumption | repeat constructor; easy|].
        intros x Hx [<-|[]]. contradiction.
    + destruct Hp as [-> | (p & u & _ & _ & _ & _ & -> & _)].
      * now exists later.
      * exists (later ++ [p]). now rewrite Hlater, app_assoc.
Qed.

End Frames.

(** * The theorems at work on the seeded shop *)

(** Two mugs in the cart, a name and an address: the checkout page
    shows 44, and the POST creates one order of 44. *)
Lemma checkout_post_creates_one_order_witness :
  let req := post_form [("name", "Ada"); ("address", "1 Main Street")]%string in
  let w := seeded_world (Some [8; 8]) in
  session_get_cart w <> [] /\ method req = POST
  /\ checkout (RT := plain_runtime) (as_get req) w
     = (Ok (render_template "checkout.html" (total_ctx 44%float)), w)
  /\ PrimFloat.is_nan 44%float = false
  /\ exists (o : Order.row) (w' : World),
       checkout (RT := plain_runtime) req w
       = (Ok (render_template "success.html" (name_ctx (Some "Ada"%string))),
          w')
       /\ cart (session w') = None
       /\ orders w' = orders w ++ [o]
       /\ Order.total_price o = 44%float.
Proof.
  intros req w.
  assert (Hne : session_get_cart w <> []) by discriminate.
  assert (Hget : checkout (RT := plain_runtime) (as_get req) w
                 = (Ok (render_template "checkout.html" (total_ctx 44%float)),
                    w)) by (vm_compute; reflexivity).
  split; [exact Hne|]. split; [reflexivity|]. split; [exact Hget|].
  split; [reflexivity|].
  destruct (checkout_post_creates_one_order (RT := plain_runtime)
              req w Hne eq_refl) as [Hsucc Hpost].
  destruct (Hpost "Ada"%string "1 Main Street"%string 44%float
              eq_refl eq_refl Hget eq_refl)
    as (o & w' & Hrun & Horders & Htotal & Hcart).
  destruct (Hsucc _ _ Hrun) as (n & a & o' & items & _).
  exists o, w'. repeat split; assumption.
Defined.

(** A visitor without a cart posts to [/checkout]. *)
Lemma checkout_empty_cart_changes_nothing_witness :
  let req := post_form [("name", "Ada"); ("address", "1 Main Street")]%string in
  session_get_cart (seeded_world None) = []
  /\ exists w' : World,
       checkout (RT := plain_runtime) req (seeded_world None)
       = (Ok (redirect (url_for shop_page_ep)), w')
       /\ orders w' = orders (seeded_world None)
       /\ products w' = products (seeded_world None)
       /\ cart (session w') = cart (session (seeded_world None)).
Proof.
  intros req. split; [reflexivity|].
  destruct (checkout_empty_cart_changes_nothing (RT := plain_runtime)
              req (seeded_world None) eq_refl)
    as (w' & Hrun & Ho & Hp & _ & _ & Hc & _).
  exists w'. repeat split; assumption.
Defined.

(** Two registrations on a fresh database, and a third name still
    free. *)
Lemma first_registered_user_is_admin_witness :
  let r1 := post_form [("username", "root"); ("password", "s3cret")]%string in
  let r2 := post_form [("username", "bob"); ("password", "hunter2")]%string in
  let r3 := post_form [("username", "eve"); ("password", "pa55")]%string in
  let w := register_step (RT := plain_runtime)
             (register_step (RT := plain_runtime) empty_world r1) r2 in
  users empty_world = []
  /\ register_reachable (RT := plain_runtime) empty_world w
  /\ first_is_only_admin (users w)
  /\ exists u : User.row,
       users (register_step (RT := plain_runtime) w r3) = users w ++ [u]
       /\ User.is_admin u = false.
Proof.
  intros r1 r2 r3 w.
  assert (Hr : register_reachable (RT := plain_runtime) empty_world w)
    by (apply reach_step, reach_step, reach_start).
  split; [reflexivity|]. split; [exact Hr|].
  destruct (first_registered_user_is_admin (RT := plain_runtime)
              empty_world w eq_refl Hr) as [Hinv Hnext].
  split; [exact Hinv|].
  destruct (Hnext r3 "eve"%string "pa55"%string
              eq_refl eq_refl eq_refl eq_refl) as (u & _ & Hu & _ & Ha).
  exists u. split; [exact Hu | exact Ha].
Defined.


(** A remove of an id that the cart does not hold. *)
Lemma cart_count_tracks_sequence_witness :
  let w := seeded_world (Some [3; 5]) in
  ~ In 7 (session_get_cart w)
  /\ snd (remove_from_cart 7 (get_args []) w) = w
  /\ inject_cart_count (snd (remove_from_cart 7 (get_args []) w)) = 2.
Proof.
  intros w.
  assert (H : ~ In 7 (session_get_cart w)).
  { cbn. intros [E | [E | []]]; discriminate E. }
  destruct cart_count_tracks_sequence as (_ & _ & Habsent).
  destruct (Habsent 7 (get_args []) w H) as (Hw & _ & Hcount).
  split; [exact H|]. split; [exact Hw|]. rewrite Hcount. reflexivity.
Defined.

(** A cart that holds product 3 twice, around product 5. *)
Lemma remove_deletes_first_occurrence_only_witness :
  let w := seeded_world (Some [5; 3; 5; 3]) in
  cart (session w) = Some [5; 3; 5; 3]
  /\ (2 <= count_occ Z.eq_dec [5; 3; 5; 3]%Z 3%Z)%nat
  /\ exists l1 l2 : list Z,
       [5; 3; 5; 3] = l1 ++ 3 :: l2 /\ ~ In 3 l1 /\ In 3 l2
       /\ cart (session (snd (remove_from_cart 3 (get_args []) w)))
          = Some (l1 ++ l2).
Proof.
  intros w.
  assert (Hn : (2 <= count_occ Z.eq_dec [5; 3; 5; 3]%Z 3%Z)%nat)
    by (vm_compute; apply le_n).
  split; [reflexivity|]. split; [exact Hn|].
  destruct (remove_deletes_first_occurrence_only 3 (get_args []) w
              [5; 3; 5; 3] eq_refl Hn)
    as (l1 & l2 & Hl & H1 & H2 & _ & Hc & _).
  exists l1, l2. repeat split; assumption.
Defined.

(** ** The further properties at work *)

Lemma seeded_keys_distinct :
  NoDup (map Product.id (products (setup_database empty_world))).
Proof.
  assert (E : map Product.id (products (setup_database empty_world))
              = [1; 2; 3; 4; 5; 6; 7; 8; 9; 10; 11])
    by (vm_compute; reflexivity).
  rewrite E. repeat (constructor; [cbn; lia|]). constructor.
Qed.

(** Bob, who is no admin, posts a product form. *)
Lemma admin_panel_denied_witness :
  let req := post_form [("product_name", "Free stuff");
                        ("product_price", "0")]%string in
  (exists u, current_user bob_world = Some u /\ User.is_admin u = false)
  /\ exists (w' : World) (location : string),
       admin_panel (RT := plain_runtime) req bob_world
       = (Ok (redirect location), w')
       /\ products w' = products bob_world.
Proof.
  intros req.
  assert (H : exists u, current_user bob_world = Some u
                        /\ User.is_admin u = false)
    by (eexists; split; vm_compute; reflexivity).
  split; [exact H|].
  destruct (admin_panel_denied (RT := plain_runtime) req bob_world
              (or_intror H)) as (w' & loc & msg & Hrun & Hp & _).
  exists w', loc. now split.
Defined.


(** The admin adds a mug with its picture. *)
Lemma admin_upload_gives_image_url_witness :
  let req := post_upload [("product_name", "Mug XL");
                          ("product_price", "24.5")]%string "mug.png" in
  exists (p : Product.row) (w' : World),
    snd (admin_panel (RT := plain_runtime) req admin_world) = w'
    /\ image_url p w' = Some "/static/images/mug.png"%string.
Proof.
  intros req.
  destruct (admin_upload_gives_image_url (RT := plain_runtime)
              req admin_world root_user "Mug XL" "24.5" "mug.png" 24.5%float
              eq_refl eq_refl eq_refl eq_refl eq_refl eq_refl eq_refl eq_refl)
    as [(p & w' & Hw & _ & _ & _ & Hurl) _];
    [discriminate
    | split; [intros H; vm_compute in H; discriminate H
             | apply Nat.leb_le; reflexivity]
    |].
  exists p, w'. now split.
Defined.

(** The admin attaches a picture and mistypes the price. *)
Lemma admin_upload_survives_bad_price_witness :
  let req := post_upload [("product_name", "Mug XL");
                          ("product_price", "abc")]%string "mug.png" in
  exists w' : World,
    admin_panel (RT := plain_runtime) req admin_world
    = (Raise ValueError, w')
    /\ uploads w' = ["mug.png"%string]
    /\ products w' = products admin_world.
Proof.
  intros req.
  destruct (admin_upload_survives_bad_price (RT := plain_runtime)
              req admin_world root_user "abc" "mug.png"
              eq_refl eq_refl eq_refl eq_refl eq_refl eq_refl)
    as (w' & Hrun & Hup & Hp & _);
    [discriminate
    | split; [intros H; vm_compute in H; discriminate H
             | apply Nat.leb_le; reflexivity]
    |].
  exists w'. repeat split; assumption.
Defined.

(** The admin attaches a picture whose name has 256 letters. *)
Lemma admin_upload_unstorable_name_witness :
  let long_name := string_of_list_ascii (repeat "a"%char 256) in
  let req := post_upload [("product_name", "Mug XL");
                          ("product_price", "24.5")]%string long_name in
  admin_panel (RT := plain_runtime) req admin_world
  = (Raise OSError, admin_world).
Proof.
  intros long_name req.
  destruct (admin_upload_unstorable_name (RT := plain_runtime)
              req admin_world root_user long_name
              eq_refl eq_refl eq_refl eq_refl) as [_ Hlong].
  - intros H. vm_compute in H. discriminate H.
  - apply Hlong. apply Nat.ltb_lt. reflexivity.
Defined.

(** A visitor searches the seeded shop for fifty thousand letters. *)
Lemma shop_page_refuses_long_pattern_witness :
  let q := string_of_list_ascii (repeat "a"%char (50 * 1000)) in
  let req := get_args [("q"%string, q)] in
  shop_page (RT := sqlite_runtime) req (seeded_world None)
  = (Raise OperationalError, seeded_world None).
Proof.
  intros q req.
  assert (Hq : args req "q"%string = Some q) by reflexivity.
  assert (Hr : pattern_refused q = true) by (vm_compute; reflexivity).
  destruct (shop_page_refuses_long_pattern (RT := sqlite_runtime)
              req (seeded_world None) q Hq Hr) as [Hrows _].
  apply Hrows. intros H. vm_compute in H. discriminate H.
Defined.

(** A second visitor asks for the name [root]. *)
Lemma register_duplicate_rejected_witness :
  let req := post_form [("username", "root"); ("password", "other")]%string in
  user_by_username (Some "root"%string) (users admin_world) = Some root_user
  /\ exists w' : World,
       register (RT := plain_runtime) req admin_world
       = (Ok (redirect (url_for register_ep)), w')
       /\ users w' = users admin_world.
Proof.
  intros req.
  assert (Hu : user_by_username (Some "root"%string) (users admin_world)
               = Some root_user) by reflexivity.
  split; [exact Hu|].
  destruct (register_duplicate_rejected (RT := plain_runtime)
              req admin_world "root" root_user eq_refl eq_refl Hu)
    as (w' & Hrun & Husers & _).
  exists w'. now split.
Defined.

(** Root and bob register on a fresh database. *)
Lemma register_keeps_usernames_unique_witness :
  NoDup (map User.username (users empty_world))
  /\ NoDup (map User.id (users empty_world))
  /\ register_reachable (RT := plain_runtime)
       (setup_database empty_world) bob_world
  /\ NoDup (map User.username (users bob_world)).
Proof.
  assert (Hr : register_reachable (RT := plain_runtime)
                 (setup_database empty_world) bob_world)
    by (apply reach_step, reach_step, reach_start).
  split; [constructor|]. split; [constructor|]. split; [exact Hr|].
  apply (register_keeps_usernames_unique (RT := plain_runtime)
           (setup_database empty_world) bob_world);
    [constructor | constructor | exact Hr].
Defined.

(** Bob registers after root and asks for the admin page. *)
Lemma register_logs_in_witness :
  let req := post_form [("username", "bob"); ("password", "hunter2")]%string in
  user_by_username (Some "bob"%string) (users admin_world) = None
  /\ exists u : User.row,
       current_user bob_world = Some u
       /\ User.username u = "bob"%string
       /\ fst (admin_panel (RT := plain_runtime) (get_args []) bob_world)
          = Ok (redirect (url_for home_ep)).
Proof.
  intros req. split; [reflexivity|].
  destruct (register_logs_in (RT := plain_runtime)
              req admin_world "bob" "hunter2"
              eq_refl eq_refl eq_refl eq_refl) as (u & Hc & Hn & _ & Ha).
  exists u. split; [exact Hc|]. split; [exact Hn|].
  apply (Ha (get_args []) eq_refl).
Defined.

(** A registration form without a password. *)
Lemma register_missing_field_raises_witness :
  let req := post_form [("username", "zed")]%string in
  form req "password"%string = None
  /\ exists e : exn,
       register (RT := plain_runtime) req admin_world = (Raise e, admin_world).
Proof.
  intros req. split; [reflexivity|].
  apply (register_missing_field_raises (RT := plain_runtime)
           req admin_world eq_refl eq_refl (or_introl eq_refl)).
Defined.

(** A login under a name nobody registered. *)
Lemma login_rejected_witness :
  let req := post_form [("username", "mallory")]%string in
  user_by_username (form req "username"%string) (users admin_world) = None
  /\ exists w' : World,
       login (AU := example_auth) req admin_world
       = (Ok (render_template "login.html" no_context), w')
       /\ user_id (session w') = Some 1.
Proof.
  intros req. split; [reflexivity|].
  destruct (login_rejected (AU := example_auth)
              req admin_world eq_refl (or_introl eq_refl))
    as (w' & Hrun & Hid & _).
  exists w'. split; [exact Hrun|]. rewrite Hid. reflexivity.
Defined.

(** Bob registers, logs out and logs in again. *)
Lemma register_logout_login_witness :
  let req := post_form [("username", "bob"); ("password", "hunter2")]%string in
  (forall p, @check_password_hash example_auth
               (@generate_password_hash plain_runtime p) p = true)
  /\ exists (u : User.row) (w3 : World),
       login (AU := example_auth) req
         (snd (logout (get_args []) bob_world))
       = (Ok (redirect (url_for home_ep)), w3)
       /\ current_user w3 = Some u
       /\ User.username u = "bob"%string.
Proof.
  intros req.
  assert (Hhash : forall p, @check_password_hash example_auth
                    (@generate_password_hash plain_runtime p) p = true)
    by (intros p; apply String.eqb_refl).
  split; [exact Hhash|].
  destruct (register_logout_login (RT := plain_runtime) (AU := example_auth)
              req (get_args []) admin_world "bob" "hunter2"
              Hhash eq_refl eq_refl eq_refl eq_refl)
    as (u & w3 & _ & _ & Hlogin & Hcur & Hname).
  exists u, w3. repeat split; assumption.
Defined.

(** A cart of two ids that no product has. *)
Lemma checkout_of_dangling_cart_witness :
  let w := seeded_world (Some [99; 100]) in
  session_get_cart w <> []
  /\ Forall (fun i => int64 i = true) (session_get_cart w)
  /\ (forall i, In i (session_get_cart w) ->
                ~ In i (map Product.id (products w)))
  /\ checkout (RT := plain_runtime) (get_args []) w
     = (Ok (render_template "checkout.html" (total_ctx 0%float)), w).
Proof.
  intros w.
  assert (Hne : session_get_cart w <> []) by discriminate.
  assert (Hb : Forall (fun i => int64 i = true) (session_get_cart w))
    by (repeat constructor).
  assert (Hd : forall i, In i (session_get_cart w) ->
                         ~ In i (map Product.id (products w))).
  { intros i [<-|[<-|[]]]; apply row_of_key_none; reflexivity. }
  split; [exact Hne|]. split; [exact Hb|]. split; [exact Hd|].
  destruct (checkout_of_dangling_cart (RT := plain_runtime)
              (get_args []) w Hne Hb Hd) as [Hget _].
  apply (Hget eq_refl).
Defined.

(** The checkout form for a mug, sent twice. *)
Lemma checkout_twice_orders_once_witness :
  let req := post_form [("name", "Ada"); ("address", "1 Main Street")]%string in
  let w := seeded_world (Some [8]) in
  session_get_cart w <> []
  /\ fst (checkout (RT := plain_runtime) req w)
     = Ok (render_template "success.html" (name_ctx (Some "Ada"%string)))
  /\ exists w2 : World,
       checkout (RT := plain_runtime) req
         (snd (checkout (RT := plain_runtime) req w))
       = (Ok (redirect (url_for shop_page_ep)), w2)
       /\ List.length (orders w2) = 1%nat.
Proof.
  intros req w.
  assert (Hne : session_get_cart w <> []) by discriminate.
  split; [exact Hne|]. split; [reflexivity|].
  destruct (checkout_twice_orders_once (RT := plain_runtime)
              req w (snd (checkout (RT := plain_runtime) req w))
              (render_template "success.html" (name_ctx (Some "Ada"%string)))
              Hne eq_refl eq_refl)
    as (w2 & Hrun & _ & Hlen).
  exists w2. split; [exact Hrun | exact Hlen].
Defined.

(** Root registers on the seeded shop, adds a product, bob registers
    and puts it in his cart. *)
Lemma reachable_worlds_are_consistent_witness :
  let w0 := setup_database empty_world in
  let d := fun _ : nat => 0 in
  let w :=
    dispatch (RT := plain_runtime) (AU := example_auth)
      (add_to_cart_route 12) (get_args []) d
      (dispatch (RT := plain_runtime) (AU := example_auth)
         register_route
         (post_form [("username", "bob"); ("password", "hunter2")]%string) d
         (dispatch (RT := plain_runtime) (AU := example_auth)
            admin_panel_route
            (post_form [("product_name", "Mug XL");
                        ("product_price", "24.5")]%string) d
            (dispatch (RT := plain_runtime) (AU := example_auth)
               register_route
               (post_form [("username", "root");
                           ("password", "s3cret")]%string) d
               w0))) in
  users w0 = []
  /\ reachable (RT := plain_runtime) (AU := example_auth) w0 w
  /\ constraints_hold w
  /\ first_is_only_admin (users w)
  /\ List.length (products w) = 12%nat.
Proof.
  intros w0 d w.
  assert (Hr : reachable (RT := plain_runtime) (AU := example_auth) w0 w)
    by (repeat apply reachable_request; apply reachable_start).
  split; [reflexivity|]. split; [exact Hr|].
  destruct (reachable_worlds_are_consistent (RT := plain_runtime)
              (AU := example_auth) w0 w eq_refl seeded_keys_distinct
              (NoDup_nil Z) Hr) as (Hc & Ha & _).
  split; [exact Hc|]. split; [exact Ha|]. reflexivity.
Defined.


(** The page of the mug, of a product that does not exist, and of an
    id too large for the database. *)
Lemma product_detail_found_iff_key_witness :
  let w := seeded_world None in
  int64 8 = true /\ In 8 (map Product.id (products w))
  /\ int64 99 = true /\ ~ In 99 (map Product.id (products w))
  /\ int64 (2 ^ 63) = false
  /\ (exists p : Product.row,
         product_detail 8 w = (Ok (detail_page p), w)
         /\ Product.id p = 8)
  /\ product_detail 99 w = (Ok (abort 404), w)
  /\ product_detail (2 ^ 63) w = (Raise OverflowError, w).
Proof.
  intros w.
  assert (H8 : In 8 (map Product.id (products w)))
    by (vm_compute; tauto).
  assert (H99 : ~ In 99 (map Product.id (products w)))
    by (apply row_of_key_none; reflexivity).
  split; [reflexivity|]. split; [exact H8|]. split; [reflexivity|].
  split; [exact H99|]. split; [reflexivity|].
  destruct (product_detail_found_iff_key 8 w) as (Hfound & _).
  destruct (product_detail_found_iff_key 99 w) as (_ & Hmissing & _).
  destruct (product_detail_found_iff_key (2 ^ 63) w) as (_ & _ & Hbig & _).
  split; [|split; [exact (Hmissing eq_refl H99) | exact (Hbig eq_refl)]].
  destruct (Hfound eq_refl H8) as (p & Hrun & _ & Hid & _).
  exists p. now split.
Defined.

(** Product 7 is added to a cart without it, and removed. *)
Lemma add_then_remove_witness :
  let w := seeded_world (Some [3; 5]) in
  ~ In 7 (session_get_cart w)
  /\ session_get_cart
       (snd (remove_from_cart 7 (get_args [])
               (snd (add_to_cart 7 (get_args []) w))))
     = [3; 5].
Proof.
  intros w.
  assert (H : ~ In 7 (session_get_cart w)).
  { cbn. intros [E | [E | []]]; discriminate E. }
  split; [exact H|].
  destruct (add_then_remove 7 (get_args []) (get_args []) w)
    as (_ & _ & Habsent & _).
  exact (Habsent H).
Defined.

(** A cart of the mug and a dangling id: one line item, badge 2. *)
Lemma badge_counts_dangling_ids_witness :
  let w := seeded_world (Some [8; 99]) in
  Forall (fun i => int64 i = true) (session_get_cart w)
  /\ inject_cart_count w = 2
  /\ exists (cart_items : list Product.row) (total : number),
       view_cart (get_args []) w
       = (Ok (render_template "cart.html" (cart_ctx cart_items total)), w)
       /\ Z.of_nat (List.length cart_items) <= 2.
Proof.
  intros w.
  assert (Hb : Forall (fun i => int64 i = true) (session_get_cart w))
    by (repeat constructor).
  split; [exact Hb|]. split; [reflexivity|].
  destruct (badge_counts_dangling_ids (get_args []) w Hb)
    as (items & total & Hrun & Hle & _).
  exists items, total. split; [exact Hrun | exact Hle].
Defined.

(** The keycaps, then the id 2^63, are added to a cart of the mug. *)
Lemma add_to_cart_then_view_witness :
  let w := seeded_world (Some [8]) in
  exists (mug keycaps : Product.row),
    view_cart (get_args []) w
    = (Ok (render_template "cart.html"
             (cart_ctx [mug] (num_add num_zero (Product.price mug)))), w)
    /\ refers_to (products w) 1 keycaps
    /\ view_cart (get_args []) (snd (add_to_cart 1 (get_args []) w))
       = (Ok (render_template "cart.html"
                (cart_ctx [mug; keycaps]
                   (num_add (num_add num_zero (Product.price mug))
                            (Product.price keycaps)))),
          snd (add_to_cart 1 (get_args []) w))
    /\ view_cart (get_args []) (snd (add_to_cart (2 ^ 63) (get_args []) w))
       = (Raise OverflowError, snd (add_to_cart (2 ^ 63) (get_args []) w)).
Proof.
  intros w. do 2 eexists.
  assert (Hview : view_cart (get_args []) w
                  = (Ok (render_template "cart.html"
                           (cart_ctx _ _)), w))
    by (vm_compute; reflexivity).
  split; [exact Hview|].
  assert (Hk : refers_to (products w) 1 _)
    by (apply row_of_key_refers; vm_compute; reflexivity).
  split; [exact Hk|].
  destruct (add_to_cart_then_view 1 (get_args []) (get_args []) w _ _ Hview)
    as (_ & Hadd & _).
  destruct (add_to_cart_then_view (2 ^ 63) (get_args []) (get_args []) w
              _ _ Hview) as (_ & _ & _ & Hbig).
  split; [exact (Hadd eq_refl _ Hk) | exact (Hbig eq_refl)].
Defined.
